(** * CitationScraper: the crawl-and-extract pipeline of [scraper_corrected.py]

    A shallow embedding of the class [CitationScraper]: page fetching,
    per-page field extraction, next-page discovery, the bounded crawl loop
    and the CSV writer, followed by the properties of the specification
    that concern them. *)

From Stdlib Require Import ZArith List Ascii String Bool Lia DecimalString.
From stdpp Require Import base decidable option list gmap.
Import ListNotations.

Local Open Scope Z_scope.
Set Warnings "-register-all".

(** ** Python values *)

(** A Python [str] is a sequence of Unicode code points. *)
Abbreviation str := (list N).

(** A string literal of the source (all of them are ASCII). *)
Definition py (s : string) : str :=
  map N_of_ascii (list_ascii_of_string s).

(** The one-character string holding the ASCII quotation mark (code point
    34), the argument of both [strip] calls of the source. *)
Definition dquote : str := [34%N].

(** Truth value of a [str]: the empty string is false. *)
Definition truthy (s : str) : bool :=
  match s with [] => false | _ :: _ => true end.

(** Truth value of a value that is a [str] or [None]. *)
Definition truthy_opt (o : option str) : bool :=
  match o with None => false | Some s => truthy s end.

(** The string behind a value that was just tested to be true. *)
Definition the_str (o : option str) : str :=
  match o with Some s => s | None => [] end.

Definition str_eqb (a b : str) : bool := bool_decide (a = b).

(** [c in chars] *)
Definition char_in (c : N) (chars : str) : bool := existsb (N.eqb c) chars.

(** [s.lstrip(chars)]: drops every leading character that is in [chars]. *)
Fixpoint lstrip (chars s : str) : str :=
  match s with
  | [] => []
  | c :: s' => if char_in c chars then lstrip chars s' else s
  end.

(** [s.rstrip(chars)] *)
Definition rstrip (chars s : str) : str := rev (lstrip chars (rev s)).

(** [s.strip(chars)]: drops every leading and every trailing character that
    is in [chars]. *)
Definition strip (chars s : str) : str := rstrip chars (lstrip chars s).

(** [c.isspace()]: the code points Python treats as whitespace. *)
Definition isspace (c : N) : bool :=
  let c := Z.of_N c in
  ((9 <=? c) && (c <=? 13)) || ((28 <=? c) && (c <=? 32))
  || (c =? 133) || (c =? 160) || (c =? 5760)
  || ((8192 <=? c) && (c <=? 8202)) || (c =? 8232) || (c =? 8233)
  || (c =? 8239) || (c =? 8287) || (c =? 12288).

(** [s.split()] with no argument: the maximal runs of non-whitespace.
    [cur] is the current run, reversed. *)
Fixpoint split_from (cur s : str) : list str :=
  match s with
  | [] => match cur with [] => [] | _ => [rev cur] end
  | c :: s' =>
      if isspace c
      then match cur with
           | [] => split_from [] s'
           | _ => rev cur :: split_from [] s'
           end
      else split_from (c :: cur) s'
  end.

Definition split (s : str) : list str := split_from [] s.

(** [sep.join(items)] *)
Fixpoint join (sep : str) (items : list str) : str :=
  match items with
  | [] => []
  | [x] => x
  | x :: rest => x ++ sep ++ join sep rest
  end.

(** [len(l)] *)
Definition len {A} (l : list A) : Z := Z.of_nat (length l).

(** [str(n)] for an [int]. *)
Definition str_of_int (n : Z) : str :=
  py (NilZero.string_of_int (Z.to_int n)).

(** ** The parsed document (BeautifulSoup) *)

(** A node of the tree is a piece of text or a tag. bs4 keeps the [class]
    attribute as the list of its values and every other attribute as one
    string. *)
Inductive node : Type :=
| NavigableString (s : str)
| Tag (name : str) (classes : list str) (attrs : gmap (list N) (list N))
      (contents : list node).

(** The nodes below [n], in document order. *)
Fixpoint descendants (n : node) : list node :=
  match n with
  | NavigableString _ => []
  | Tag _ _ _ contents =>
      (fix below (l : list node) : list node :=
         match l with
         | [] => []
         | c :: l' => c :: descendants c ++ below l'
         end) contents
  end.

Definition descendants_of (l : list node) : list node :=
  flat_map (fun c => c :: descendants c) l.

Definition contents (n : node) : list node :=
  match n with
  | NavigableString _ => []
  | Tag _ _ _ cs => cs
  end.

(** Does [n] match the search [name], [class_]? A class filter matches when
    one of the tag's classes is the wanted one. *)
Definition matches (name : str) (class_ : option str) (n : node) : bool :=
  match n with
  | NavigableString _ => false
  | Tag nm classes _ _ =>
      str_eqb nm name &&
      match class_ with
      | None => true
      | Some c => existsb (str_eqb c) classes
      end
  end.

(** [tag.find_all(name, class_=...)]: every matching descendant, in document
    order (the search is recursive). *)
Definition find_all (name : str) (class_ : option str) (within : list node)
  : list node :=
  List.filter (matches name class_) (descendants_of within).

(** [tag.find(name, class_=...)]: the first matching descendant, or [None]. *)
Definition find (name : str) (class_ : option str) (within : list node)
  : option node :=
  head (find_all name class_ within).

(** [tag.get_text()]: the text pieces below the tag, concatenated. *)
Fixpoint get_text (n : node) : str :=
  match n with
  | NavigableString s => s
  | Tag _ _ _ contents =>
      (fix texts (l : list node) : str :=
         match l with
         | [] => []
         | c :: l' => get_text c ++ texts l'
         end) contents
  end.

(** [tag[key]]: the attribute, [None] standing for the [KeyError]. *)
Definition get_attr (n : node) (key : str) : option str :=
  match n with
  | NavigableString _ => None
  | Tag _ _ attrs _ => attrs !! key
  end.


(** ** Exceptions, effects and the state of a run *)

(** What [session.get] can raise: all are subclasses of
    [requests.RequestException]. *)
Inductive request_error : Type :=
| ConnectionError
| Timeout
| HTTPError (status_code : Z)
| InvalidURL.

(** [IOError] is the class [OSError]; [FileExistsError] and
    [PermissionError] are subclasses of it. [ValueError] stands for itself
    and its subclasses ([UnicodeEncodeError]). [ParserRejectedMarkup] is
    what [BeautifulSoup] raises on markup its parser rejects. *)
Inductive exn : Type :=
| RequestException (e : request_error)
| AttributeError
| KeyError (key : str)
| IOError
| FileExistsError
| PermissionError
| ValueError
| ParserRejectedMarkup.

Definition is_RequestException (e : exn) : bool :=
  match e with RequestException _ => true | _ => false end.
Definition is_AttributeError (e : exn) : bool :=
  match e with AttributeError => true | _ => false end.
Definition is_IOError (e : exn) : bool :=
  match e with
  | IOError | FileExistsError | PermissionError => true
  | _ => false
  end.

(** One scraped quote: the dictionary built by [parse_quote_page]. *)
Record quote : Type := {
  texto : str;
  autor : str;
  tags : str;
  num_tags : Z;
  num_palavras : Z;
  data_coleta : str
}.

(** The lines the program prints. *)
Inductive message : Type :=
| MsgAccessError (url : str) (e : exn)   (* Erro ao acessar {url}: {e} *)
| MsgQuoteError (e : exn)                (* Erro ao processar citacao: {e} *)
| MsgStart                               (* Iniciando coleta de dados... *)
| MsgRule                                (* "-" * 50 *)
| MsgPage (n : Z)                        (* Coletando pagina {n}... *)
| MsgCollected (n : Z)                   (* {n} citacoes coletadas *)
| MsgDone (total : Z)                    (* Coleta finalizada! Total: ... *)
| MsgNoData                              (* Nenhum dado para salvar! *)
| MsgSaved (filepath : str)              (* Dados salvos em: {filepath} *)
| MsgSaveError (e : exn).                (* Erro ao salvar arquivo: {e} *)

(** What a run does to the outside, in the order it happens. *)
Inductive event : Type :=
| Print (line : message)
| HttpGet (url : str) (timeout : Z)
| Sleep (seconds : Z).

(** What the server answers to one request. *)
Inductive http_outcome : Type :=
| Responded (status_code : Z) (text : str)
| Failed (e : request_error).

(** How writing a file goes: all of it, an [IOError] on [open], or an
    [IOError] after some rows. *)
Inductive io_outcome : Type :=
| IoOk
| OpenError
| WriteError (rows_written : nat).

(** The world outside the program. [BeautifulSoup html] is the tree the
    parser builds for [html] when it takes it (the markup it rejects is
    [Host.parser_rejects]); [session_get n url] is the answer to the
    request for [url] when [n] requests were made before it;
    [datetime_now n] is the formatted clock at its [n]-th reading;
    [open_w path] is what the host does with the file opened for
    writing. *)
Record environment : Type := {
  BeautifulSoup : str -> list node;
  session_get : nat -> str -> http_outcome;
  datetime_now : nat -> str;
  open_w : str -> io_outcome
}.

(** The object [self]. *)
Record CitationScraper : Type := {
  base_url : str;
  quotes_data : list quote
}.

(** [CitationScraper(base_url)] *)
Definition __init__ (base_url : str) : CitationScraper :=
  {| base_url := base_url; quotes_data := [] |}.

(** The state a method runs in: the object, what happened so far, the
    number of clock readings, and the file system (a file is the list of
    the rows given to the csv writer). *)
Record state : Type := {
  self : CitationScraper;
  trace : list event;
  clock_reads : nat;
  files : gmap (list N) (list (list (list N)));
  dirs : gset (list N)
}.

Inductive outcome (A : Type) : Type :=
| Return (a : A)
| Raise (e : exn)
| OutOfFuel.
Arguments Return {A} a.
Arguments Raise {A} e.
Arguments OutOfFuel {A}.

(** A computation: it ends in a value or an exception, and the state it
    reached stays as it is in both cases. *)
Definition M (A : Type) : Type := state -> outcome A * state.

Definition ret {A} (a : A) : M A := fun st => (Return a, st).

Definition bind {A B} (m : M A) (k : A -> M B) : M B :=
  fun st =>
    match m st with
    | (Return a, st') => k a st'
    | (Raise e, st') => (Raise e, st')
    | (OutOfFuel, st') => (OutOfFuel, st')
    end.

Definition raise {A} (e : exn) : M A := fun st => (Raise e, st).

(** [try: m  except <class> as e: handler e] *)
Definition try_except {A} (m : M A) (caught : exn -> bool)
    (handler : exn -> M A) : M A :=
  fun st =>
    match m st with
    | (Raise e, st') => if caught e then handler e st' else (Raise e, st')
    | r => r
    end.

Declare Scope py_scope.
Delimit Scope py_scope with py.
Notation "x <- m ;; k" := (bind m (fun x => k))
  (at level 100, m at next level, right associativity) : py_scope.
Notation "m ;;; k" := (bind m (fun _ => k))
  (at level 100, right associativity) : py_scope.
Local Open Scope py_scope.

(** The state after the events [evs] have happened. *)
Definition add_events (st : state) (evs : list event) : state :=
  {| self := self st; trace := trace st ++ evs;
     clock_reads := clock_reads st; files := files st; dirs := dirs st |}.

Definition emit (e : event) : M unit :=
  fun st => (Return tt, add_events st [e]).

Definition print (line : message) : M unit := emit (Print line).

(** [time.sleep(seconds)] *)
Definition time_sleep (seconds : Z) : M unit := emit (Sleep seconds).

Definition get_self : M CitationScraper := fun st => (Return (self st), st).

Definition is_http_get (e : event) : bool :=
  match e with HttpGet _ _ => true | _ => false end.

(** Number of requests in a trace. *)
Definition fetch_count (tr : list event) : nat :=
  length (List.filter is_http_get tr).

Definition is_print (e : event) : bool :=
  match e with Print _ => true | _ => false end.

(** The requests and pauses of a trace, in order. *)
Definition effects (tr : list event) : list event :=
  List.filter (fun e => negb (is_print e)) tr.

(** ** The methods of [CitationScraper] *)

Section Methods.

Variable E : environment.

(** [self.session.get(url, timeout=...)]: one request; the answer comes
    back or a [RequestException] is raised. *)
Definition session_get_ (url : str) (timeout : Z)
  : M (Z * str) :=
  fun st =>
    let st' := add_events st [HttpGet url timeout] in
    match session_get E (fetch_count (trace st)) url with
    | Responded status_code text => (Return (status_code, text), st')
    | Failed e => (Raise (RequestException e), st')
    end.

(** [response.raise_for_status()] of the requests library: an [HTTPError]
    for a 4xx or 5xx status, nothing otherwise. *)
Definition raise_for_status (response : Z * str) : M unit :=
  let status_code := fst response in
  if (400 <=? status_code) && (status_code <? 600)
  then raise (RequestException (HTTPError status_code))
  else ret tt.

(** [get_page_content(self, url)]: the body, or [None]. *)
Definition get_page_content (url : str) : M (option str) :=
  try_except
    (response <- session_get_ url 10 ;;
     raise_for_status response ;;;
     ret (Some (snd response)))
    is_RequestException
    (fun e => print (MsgAccessError url e) ;;; ret None).

(** [x.get_text()] where [x] is the result of a [find]: on [None] the
    attribute lookup raises [AttributeError]. *)
Definition get_text_of (x : option node) : M str :=
  match x with
  | Some n => ret (get_text n)
  | None => raise AttributeError
  end.

(** [datetime.now().strftime(...)] *)
Definition now_strftime : M str :=
  fun st =>
    (Return (datetime_now E (clock_reads st)),
     {| self := self st; trace := trace st;
        clock_reads := S (clock_reads st); files := files st;
        dirs := dirs st |}).

(** The body of the [try] in [parse_quote_page]: the dictionary of one
    container. *)
Definition quote_of (quote_div : node) : M quote :=
  text <- get_text_of
            (find (py "span") (Some (py "text")) (contents quote_div)) ;;
  let text := strip dquote (strip dquote text) in
  author <- get_text_of
              (find (py "small") (Some (py "author")) (contents quote_div)) ;;
  let tags := map get_text
                (find_all (py "a") (Some (py "tag")) (contents quote_div)) in
  let word_count := len (split text) in
  stamp <- now_strftime ;;
  ret {| texto := text; autor := author; tags := join (py ", ") tags;
         num_tags := len tags; num_palavras := word_count;
         data_coleta := stamp |}.

(** The [for quote_div in quote_divs] loop, [quotes] being the list built
    so far. *)
Fixpoint for_quote_divs (quote_divs : list node) (quotes : list quote)
  : M (list quote) :=
  match quote_divs with
  | [] => ret quotes
  | quote_div :: rest =>
      quotes' <- try_except
                   (q <- quote_of quote_div ;; ret (quotes ++ [q]))
                   is_AttributeError
                   (fun e => print (MsgQuoteError e) ;;; ret quotes) ;;
      for_quote_divs rest quotes'
  end.

(** [parse_quote_page(self, html_content)] *)
Definition parse_quote_page (html_content : str) : M (list quote) :=
  let soup := BeautifulSoup E html_content in
  let quote_divs := find_all (py "div") (Some (py "quote")) soup in
  for_quote_divs quote_divs [].

(** [get_next_page_url(self, html_content)]: it reads [self.base_url] and
    changes nothing. A tag is always true, so [if next_button] asks
    whether one was found. *)
Definition get_next_page_url (this : CitationScraper) (html_content : str)
  : outcome (option str) :=
  let soup := BeautifulSoup E html_content in
  match find (py "li") (Some (py "next")) soup with
  | Some next_button =>
      match find (py "a") None (contents next_button) with
      | Some next_link =>
          match get_attr next_link (py "href") with
          | Some href => Return (Some (base_url this ++ href))
          | None => Raise (KeyError (py "href"))
          end
      | None => Return None
      end
  | None => Return None
  end.

Definition get_next_page_url_ (html_content : str) : M (option str) :=
  fun st => (get_next_page_url (self st) html_content, st).

(** [self.quotes_data.extend(page_quotes)] *)
Definition extend_quotes_data (page_quotes : list quote) : M unit :=
  fun st =>
    (Return tt,
     {| self := {| base_url := base_url (self st);
                   quotes_data := quotes_data (self st) ++ page_quotes |};
        trace := trace st; clock_reads := clock_reads st;
        files := files st; dirs := dirs st |}).

(** The [while current_url and pages_scraped < max_pages] loop. [fuel]
    bounds the number of iterations. *)
Fixpoint while_pages (fuel : nat) (max_pages : Z) (current_url : option str)
    (pages_scraped : Z) : M unit :=
  if truthy_opt current_url && (pages_scraped <? max_pages) then
    match fuel with
    | O => fun st => (OutOfFuel, st)
    | S fuel' =>
        print (MsgPage (pages_scraped + 1)) ;;;
        html_content <- get_page_content (the_str current_url) ;;
        if negb (truthy_opt html_content) then ret tt
        else
          let html_content := the_str html_content in
          page_quotes <- parse_quote_page html_content ;;
          extend_quotes_data page_quotes ;;;
          print (MsgCollected (len page_quotes)) ;;;
          current_url <- get_next_page_url_ html_content ;;
          let pages_scraped := pages_scraped + 1 in
          (if truthy_opt current_url then time_sleep 1 else ret tt) ;;;
          while_pages fuel' max_pages current_url pages_scraped
    end
  else ret tt.

(** [scrape_all_pages(self, max_pages)] *)
Definition scrape_all_pages (max_pages : Z) : M (list quote) :=
  this <- get_self ;;
  let current_url := Some (base_url this ++ py "/page/1/") in
  let pages_scraped := 0 in
  print MsgStart ;;;
  print MsgRule ;;;
  while_pages (Z.to_nat max_pages) max_pages current_url pages_scraped ;;;
  print MsgRule ;;;
  this <- get_self ;;
  print (MsgDone (len (quotes_data this))) ;;;
  ret (quotes_data this).

(** [os.makedirs(path, exist_ok=True)] when it goes through: the directory
    exists afterwards. The call as it can fail is [Host.os_makedirs]. *)
Definition os_makedirs (path : str) : M unit :=
  fun st =>
    (Return tt,
     {| self := self st; trace := trace st; clock_reads := clock_reads st;
        files := files st; dirs := {[path]} ∪ dirs st |}).

(** [os.path.join(a, b)] (POSIX). *)
Definition os_path_join (a b : str) : str :=
  match b with
  | 47%N :: _ => b
  | _ =>
      match a with
      | [] => b
      | _ => if bool_decide (last a = Some 47%N) then a ++ b
             else a ++ py "/" ++ b
      end
  end.

Definition fieldnames : list str :=
  [py "texto"; py "autor"; py "tags"; py "num_tags"; py "num_palavras";
   py "data_coleta"].

(** The row [csv.DictWriter] writes for one dictionary. *)
Definition row_of (q : quote) : list str :=
  [texto q; autor q; tags q; str_of_int (num_tags q);
   str_of_int (num_palavras q); data_coleta q].

(** The [with open(filepath, 'w', ...)] block: header, then the rows, for
    a path that [open] takes and rows that can be encoded, so that only
    the host can fail, with [IOError]. The block with the [ValueError] of
    [open] and of the encoder is [Host.write_csv]. *)
Definition write_csv (filepath : str) (rows : list quote) : M unit :=
  fun st =>
    let put (content : list (list str)) :=
      {| self := self st; trace := trace st; clock_reads := clock_reads st;
         files := <[filepath := content]> (files st); dirs := dirs st |} in
    let all_rows := fieldnames :: map row_of rows in
    match open_w E filepath with
    | OpenError => (Raise IOError, st)
    | WriteError n => (Raise IOError, put (firstn n all_rows))
    | IoOk => (Return tt, put all_rows)
    end.

(** [save_to_csv(self, filename)]: the path written, or [None]. *)
Definition save_to_csv (filename : str) : M (option str) :=
  os_makedirs (py "dados") ;;;
  let filepath := os_path_join (py "dados") filename in
  this <- get_self ;;
  match quotes_data this with
  | [] => print MsgNoData ;;; ret None
  | _ :: _ =>
      try_except
        (write_csv filepath (quotes_data this) ;;;
         print (MsgSaved filepath) ;;;
         ret (Some filepath))
        is_IOError
        (fun e => print (MsgSaveError e) ;;; ret None)
  end.

End Methods.

(** ** A small site to run the scraper on *)

(** A parser given by a table from bodies to documents; a body that is not
    in the table has no tags. *)
Definition table_soup (tbl : list (str * list node)) (html : str)
  : list node :=
  match List.find (fun p => str_eqb (fst p) html) tbl with
  | Some p => snd p
  | None => []
  end.

(** A server given by a table from addresses to answers; any other address
    cannot be reached. *)
Definition table_site (tbl : list (str * http_outcome)) (n : nat)
    (url : str) : http_outcome :=
  match List.find (fun p => str_eqb (fst p) url) tbl with
  | Some p => snd p
  | None => Failed ConnectionError
  end.

Definition table_env (docs : list (str * list node))
    (site : list (str * http_outcome)) : environment :=
  {| BeautifulSoup := table_soup docs;
     session_get := table_site site;
     datetime_now := fun n => str_of_int (Z.of_nat n);
     open_w := fun _ => IoOk |}.

Definition tag (name : string) (classes : list string)
    (attrs : list (string * string)) (cs : list node) : node :=
  Tag (py name) (map py classes)
      (list_to_map (map (fun kv => (py (fst kv), py (snd kv))) attrs)) cs.

Definition txt (s : string) : node := NavigableString (py s).

Local Open Scope string_scope.

(** [<div class="quote">] with a text, an author and tags. *)
Definition quote_div_of (text author : string) (tag_names : list string)
  : node :=
  tag "div" ["quote"] []
    [tag "span" ["text"] [] [txt text];
     tag "small" ["author"] [] [txt author];
     tag "div" ["tags"] []
       (map (fun t => tag "a" ["tag"] [] [txt t]) tag_names)].

(** [<li class="next"><a href=...>Next</a></li>] *)
Definition next_li (href : string) : node :=
  tag "li" ["next"] [] [tag "a" [] [("href", href)] [txt "Next"]].

(** Containers that lack something, or hold an empty element. *)
Definition empty_text_div : node :=
  tag "div" ["quote"] []
    [tag "span" ["text"] [] []; tag "small" ["author"] [] [txt "X"]].

Definition empty_author_div : node :=
  tag "div" ["quote"] []
    [tag "span" ["text"] [] [txt "a"]; tag "small" ["author"] [] []].

Definition no_author_div : node :=
  tag "div" ["quote"] [] [tag "span" ["text"] [] [txt "b"]].

(** [<li class="next"><a>Next</a></li>]: the anchor has no [href]. *)
Definition next_li_without_href : node :=
  tag "li" ["next"] [] [tag "a" [] [] [txt "Next"]].

Definition demo_docs : list (str * list node) :=
  [(py "P1", [quote_div_of "a b" "X" ["t"; "u"]; next_li "/page/2/"]);
   (py "P2", [quote_div_of "c" "Y" []]);
   (py "EMPTY-TEXT", [empty_text_div]);
   (py "EMPTY-AUTHOR", [empty_author_div]);
   (py "MIXED",
    [quote_div_of "a" "X" []; no_author_div; quote_div_of "c" "Y" ["t"]]);
   (py "NO-HREF", [quote_div_of "a" "X" []; next_li_without_href])].

Definition demo_site : list (str * http_outcome) :=
  [(py "http://q/page/1/", Responded 200 (py "P1"));
   (py "http://q/page/2/", Responded 200 (py "P2"));
   (py "http://q/choices", Responded 300 (py "P2"));
   (py "http://e/page/1/", Responded 200 (py "P1"));
   (py "http://e/page/2/", Responded 200 [])].

Definition demo_env : environment := table_env demo_docs demo_site.

Local Close Scope string_scope.

Definition start_state (base : str) : state :=
  {| self := __init__ base; trace := []; clock_reads := 0%nat;
     files := ∅; dirs := ∅ |}.

(** ** Vocabulary of the statements *)

(** One layer of quotation marks, as the specification words the
    normalisation: at most one mark is taken from each end. *)
Definition strip_one_layer (s : str) : str :=
  let s1 := match s with 34%N :: s' => s' | _ => s end in
  match rev s1 with
  | 34%N :: r => rev r
  | _ => s1
  end.

(** A container has both required elements. *)
Definition well_formed (quote_div : node) : bool :=
  match find (py "span") (Some (py "text")) (contents quote_div),
        find (py "small") (Some (py "author")) (contents quote_div) with
  | Some _, Some _ => true
  | _, _ => false
  end.

(** [q] is the entry of the container [quote_div], whatever its time
    stamp. *)
Definition entry_of (q : quote) (quote_div : node) : Prop :=
  exists text_node author_node,
    find (py "span") (Some (py "text")) (contents quote_div)
      = Some text_node
    /\ find (py "small") (Some (py "author")) (contents quote_div)
      = Some author_node
    /\ texto q = strip dquote (strip dquote (get_text text_node))
    /\ autor q = get_text author_node
    /\ tags q = join (py ", ")
                  (map get_text
                     (find_all (py "a") (Some (py "tag"))
                        (contents quote_div)))
    /\ num_tags q = len (find_all (py "a") (Some (py "tag"))
                           (contents quote_div))
    /\ num_palavras q = len (split (texto q)).

(** The request for [url], made after [n] others, brings [body] back with a
    status that [raise_for_status] lets through. *)
Definition fetch_ok (E : environment) (n : nat) (url body : str) : Prop :=
  exists status_code,
    session_get E n url = Responded status_code body
    /\ ~ (400 <= status_code < 600).



(** Starting at [url] after [n] requests, the pages [bodies] come back one
    after the other, each naming the next address, the last one naming
    [url_end]. *)
Fixpoint linked_pages (E : environment) (this : CitationScraper) (n : nat)
    (url : str) (bodies : list str) (url_end : str) : Prop :=
  match bodies with
  | [] => url = url_end
  | body :: rest =>
      fetch_ok E n url body
      /\ exists url',
           get_next_page_url E this body = Return (Some url')
           /\ linked_pages E this (S n) url' rest url_end
  end.

(** [qs] is what [parse_quote_page] returns for the pages [bodies], in
    order, the first call being made at clock reading [c]. *)
Inductive extracted_from (E : environment)
  : nat -> list str -> list quote -> Prop :=
| extracted_nil (c : nat) : extracted_from E c [] []
| extracted_cons (c : nat) (body : str) (rest : list str)
    (qs qs' : list quote) (st st' : state) :
    clock_reads st = c ->
    parse_quote_page E body st = (Return qs, st') ->
    extracted_from E (clock_reads st') rest qs' ->
    extracted_from E c (body :: rest) (qs ++ qs').

(** ** [get_statistics] *)

(** [author_counts[author] = author_counts.get(author, 0) + 1]. The
    dictionary is kept as the list of its items in insertion order: a key
    that is there keeps its place, a new key goes to the end. *)
Fixpoint count_author (author : str) (author_counts : list (str * Z))
  : list (str * Z) :=
  match author_counts with
  | [] => [(author, 0 + 1)]
  | (a, n) :: rest =>
      if str_eqb a author then (a, n + 1) :: rest
      else (a, n) :: count_author author rest
  end.

(** The [for quote in self.quotes_data] loop that fills [author_counts]. *)
Definition count_authors (quotes : list quote) : list (str * Z) :=
  fold_left (fun author_counts q => count_author (autor q) author_counts)
    quotes [].

(** [max(items, key=lambda x: x[1])] from [best] on: a later item wins only
    with a strictly larger count. *)
Fixpoint max_from (best : str * Z) (items : list (str * Z)) : str * Z :=
  match items with
  | [] => best
  | x :: rest =>
      if snd best <? snd x then max_from x rest else max_from best rest
  end.

(** [max(...)]: [None] stands for the [ValueError] on an empty sequence. *)
Definition max_by_count (items : list (str * Z)) : option (str * Z) :=
  match items with
  | [] => None
  | x :: rest => Some (max_from x rest)
  end.

(** [sum(q['num_palavras'] for q in quotes)] *)
Definition sum_words (quotes : list quote) : Z :=
  fold_left (fun acc q => acc + num_palavras q) quotes 0.

(** [len(set(q['autor'] for q in quotes))] *)
Definition unique_count (quotes : list quote) : Z :=
  Z.of_nat (size (list_to_set (map autor quotes) : gset (list N))).

(** What [get_statistics] ends in: [None], the dictionary, or the
    [ValueError] of [max]. *)
Inductive stats_result (A : Type) : Type :=
| NoStatistics
| Statistics (a : A)
| MaxValueError.
Arguments NoStatistics {A}.
Arguments Statistics {A} a.
Arguments MaxValueError {A}.

Section Statistics.

(** Python's floats: [true_div a b] is [a / b] on two [int]s and
    [round_ x n] is [round(x, n)]. *)
Variable float : Type.
Variable true_div : Z -> Z -> float.
Variable round_ : float -> Z -> float.

Record statistics : Type := {
  total_citacoes : Z;
  autores_unicos : Z;
  media_palavras : float;
  autor_mais_citado : str;
  num_citacoes_autor : Z
}.

(** [get_statistics(self)] *)
Definition get_statistics (this : CitationScraper)
  : stats_result statistics :=
  match quotes_data this with
  | [] => NoStatistics
  | _ :: _ =>
      let total_quotes := len (quotes_data this) in
      let unique_authors := unique_count (quotes_data this) in
      let avg_words := true_div (sum_words (quotes_data this)) total_quotes in
      let author_counts := count_authors (quotes_data this) in
      match max_by_count author_counts with
      | None => MaxValueError
      | Some most_quoted =>
          Statistics
            {| total_citacoes := total_quotes;
               autores_unicos := unique_authors;
               media_palavras := round_ avg_words 1;
               autor_mais_citado := fst most_quoted;
               num_citacoes_autor := snd most_quoted |}
      end
  end.

End Statistics.

Arguments total_citacoes {float} s.
Arguments autores_unicos {float} s.
Arguments media_palavras {float} s.
Arguments autor_mais_citado {float} s.
Arguments num_citacoes_autor {float} s.

(** ** The tags column in [QuotesAnalyzer] *)

(** Is [p] the beginning of [s]? *)
Fixpoint starts_with (p s : str) : bool :=
  match p, s with
  | [], _ => true
  | _ :: _, [] => false
  | a :: p', b :: s' => N.eqb a b && starts_with p' s'
  end.

(** [s.split(sep)] for a non-empty [sep], scanning from the left: [skip]
    characters of a separator just found are still to be passed over, and
    [cur] is the current piece, reversed. *)
Fixpoint split_on_from (sep : str) (skip : nat) (cur s : str) : list str :=
  match s with
  | [] => [rev cur]
  | c :: s' =>
      match skip with
      | S k => split_on_from sep k cur s'
      | O =>
          if starts_with sep s
          then rev cur :: split_on_from sep (length sep - 1) [] s'
          else split_on_from sep 0 (c :: cur) s'
      end
  end.

Definition split_on (sep s : str) : list str := split_on_from sep 0 [] s.

(** [s.lstrip()], [s.strip()] with no argument: whitespace goes. *)
Fixpoint lstrip_ws (s : str) : str :=
  match s with
  | [] => []
  | c :: s' => if isspace c then lstrip_ws s' else s
  end.

Definition strip_ws (s : str) : str := rev (lstrip_ws (rev (lstrip_ws s))).

(** [[tag.strip() for tag in tags_str.split(',')]] *)
Definition tags_list (tags_str : str) : list str :=
  map strip_ws (split_on (py ",") tags_str).

(** The loop over [self.df['tags']] that fills [all_tags]; a cell is a
    string, or [None] for the NaN that [pd.notna] rejects. *)
Fixpoint all_tags (column : list (option str)) : list str :=
  match column with
  | [] => []
  | Some tags_str :: rest => tags_list tags_str ++ all_tags rest
  | None :: rest => all_tags rest
  end.

(** ** Further vocabulary *)

(** Requests and pauses in turn: a request with the fixed timeout first,
    a pause of one second after every request but possibly the last. *)
Inductive paced : list event -> Prop :=
| paced_nil : paced []
| paced_last (url : str) : paced [HttpGet url 10]
| paced_cons (url : str) (rest : list event) :
    paced rest -> paced (HttpGet url 10 :: Sleep 1 :: rest).

(** A site whose first page has a next marker with an anchor that lacks
    [href]. *)
Definition no_href_env : environment :=
  table_env demo_docs
    [(py "http://h/page/1/", Responded 200 (py "NO-HREF"))].


(** The state after the small site was crawled. *)
Definition crawled_state : state :=
  snd (scrape_all_pages demo_env 5 (start_state (py "http://q"))).

(** [author_counts.get(author, 0)] *)
Fixpoint count_in (author : str) (author_counts : list (str * Z)) : Z :=
  match author_counts with
  | [] => 0
  | (a, n) :: rest => if str_eqb a author then n else count_in author rest
  end.

(** The number of quotes of [author] among [quotes]. *)
Definition citations_of (author : str) (quotes : list quote) : Z :=
  len (List.filter (fun q => str_eqb (autor q) author) quotes).

(** ** The methods on a host whose library calls can fail *)

(** The definitions above take the three library calls that the source
    makes outside any [try] as calls that go through: [BeautifulSoup(...)]
    builds a tree, [os.makedirs] makes the directory, and [open] and the
    csv writer fail with [IOError] only. [Host] has the same methods with
    those calls as they are: each can raise, and what it raises leaves the
    method. *)
Module Host.

(** A host is an environment together with the markup its parser rejects
    and what its [os.makedirs] raises, if anything, for a path that is not
    a regular file (a [PermissionError], say). *)
Record host : Type := {
  env : environment;
  parser_rejects : str -> bool;
  makedirs_raises : str -> option exn
}.

Section Methods.

Variable H : host.

(** [BeautifulSoup(html_content, 'html.parser')] *)
Definition BeautifulSoup_ (html_content : str) : M (list node) :=
  if parser_rejects H html_content then raise ParserRejectedMarkup
  else ret (BeautifulSoup (env H) html_content).

(** [parse_quote_page(self, html_content)]: the parser is called before
    the loop and outside its [try]. *)
Definition parse_quote_page (html_content : str) : M (list quote) :=
  soup <- BeautifulSoup_ html_content ;;
  let quote_divs := find_all (py "div") (Some (py "quote")) soup in
  for_quote_divs (env H) quote_divs [].

(** [get_next_page_url(self, html_content)] *)
Definition get_next_page_url (this : CitationScraper) (html_content : str)
  : outcome (option str) :=
  if parser_rejects H html_content then Raise ParserRejectedMarkup
  else
    let soup := BeautifulSoup (env H) html_content in
    match find (py "li") (Some (py "next")) soup with
    | Some next_button =>
        match find (py "a") None (contents next_button) with
        | Some next_link =>
            match get_attr next_link (py "href") with
            | Some href => Return (Some (base_url this ++ href))
            | None => Raise (KeyError (py "href"))
            end
        | None => Return None
        end
    | None => Return None
    end.

Definition get_next_page_url_ (html_content : str) : M (option str) :=
  fun st => (get_next_page_url (self st) html_content, st).

(** The [while] loop of [scrape_all_pages]. *)
Fixpoint while_pages (fuel : nat) (max_pages : Z) (current_url : option str)
    (pages_scraped : Z) : M unit :=
  if truthy_opt current_url && (pages_scraped <? max_pages) then
    match fuel with
    | O => fun st => (OutOfFuel, st)
    | S fuel' =>
        print (MsgPage (pages_scraped + 1)) ;;;
        html_content <- get_page_content (env H) (the_str current_url) ;;
        if negb (truthy_opt html_content) then ret tt
        else
          let html_content := the_str html_content in
          page_quotes <- parse_quote_page html_content ;;
          extend_quotes_data page_quotes ;;;
          print (MsgCollected (len page_quotes)) ;;;
          current_url <- get_next_page_url_ html_content ;;
          let pages_scraped := pages_scraped + 1 in
          (if truthy_opt current_url then time_sleep 1 else ret tt) ;;;
          while_pages fuel' max_pages current_url pages_scraped
    end
  else ret tt.

(** [scrape_all_pages(self, max_pages)] *)
Definition scrape_all_pages (max_pages : Z) : M (list quote) :=
  this <- get_self ;;
  let current_url := Some (base_url this ++ py "/page/1/") in
  let pages_scraped := 0 in
  print MsgStart ;;;
  print MsgRule ;;;
  while_pages (Z.to_nat max_pages) max_pages current_url pages_scraped ;;;
  print MsgRule ;;;
  this <- get_self ;;
  print (MsgDone (len (quotes_data this))) ;;;
  ret (quotes_data this).

(** [os.makedirs(path, exist_ok=True)]: a path that is a regular file
    gives [FileExistsError]; the host may raise of its own; otherwise the
    directory exists afterwards. *)
Definition os_makedirs (path : str) : M unit :=
  fun st =>
    match files st !! path with
    | Some _ => (Raise FileExistsError, st)
    | None =>
        match makedirs_raises H path with
        | Some e => (Raise e, st)
        | None =>
            (Return tt,
             {| self := self st; trace := trace st;
                clock_reads := clock_reads st; files := files st;
                dirs := {[path]} ∪ dirs st |})
        end
    end.

(** Can the code point be written with [encoding='utf-8']? The surrogates
    cannot. *)
Definition encodable (c : N) : bool :=
  negb ((55296 <=? c)%N && (c <=? 57343)%N).

Definition row_encodable (row : list str) : bool :=
  forallb (forallb encodable) row.

(** The number of rows before the first one that cannot be encoded. *)
Fixpoint encodable_rows (rows : list (list str)) : nat :=
  match rows with
  | [] => 0
  | row :: rest =>
      if row_encodable row then S (encodable_rows rest) else 0
  end.

(** Does [open] take the path? Not with a NUL in it, nor with a surrogate
    other than those that stand for a byte (U+DC80 to U+DCFF). *)
Definition valid_path (path : str) : bool :=
  forallb
    (fun c => negb (c =? 0)%N
              && (encodable c || ((56448 <=? c)%N && (c <=? 56575)%N)))
    path.

(** The [with open(filepath, 'w', ...)] block: the rows are encoded and
    written one after the other; a [ValueError] comes from [open] for a
    path it does not take and from the first row that cannot be encoded,
    an [IOError] from the host. What was written before stays in the
    file. *)
Definition write_csv (filepath : str) (rows : list quote) : M unit :=
  fun st =>
    let put (content : list (list str)) :=
      {| self := self st; trace := trace st; clock_reads := clock_reads st;
         files := <[filepath := content]> (files st); dirs := dirs st |} in
    let all_rows := fieldnames :: map row_of rows in
    let k := encodable_rows all_rows in
    if negb (valid_path filepath) then (Raise ValueError, st)
    else
      match open_w (env H) filepath with
      | OpenError => (Raise IOError, st)
      | WriteError n =>
          if (k <? length all_rows)%nat && (k <=? n)%nat
          then (Raise ValueError, put (firstn k all_rows))
          else (Raise IOError, put (firstn n all_rows))
      | IoOk =>
          if (k <? length all_rows)%nat
          then (Raise ValueError, put (firstn k all_rows))
          else (Return tt, put all_rows)
      end.

(** [save_to_csv(self, filename)]: [os.makedirs] comes first, outside the
    [try]; the [except] clause takes [IOError] only. *)
Definition save_to_csv (filename : str) : M (option str) :=
  os_makedirs (py "dados") ;;;
  let filepath := os_path_join (py "dados") filename in
  this <- get_self ;;
  match quotes_data this with
  | [] => print MsgNoData ;;; ret None
  | _ :: _ =>
      try_except
        (write_csv filepath (quotes_data this) ;;;
         print (MsgSaved filepath) ;;;
         ret (Some filepath))
        is_IOError
        (fun e => print (MsgSaveError e) ;;; ret None)
  end.

End Methods.

End Host.

(** The small site on a host whose parser rejects one body and which
    makes every directory asked for. *)
Definition demo_host : Host.host :=
  {| Host.env := demo_env;
     Host.parser_rejects := fun html => str_eqb html (py "<![x]>");
     Host.makedirs_raises := fun _ => None |}.

(** A host whose server answers the first page with the body that its
    parser rejects. *)
Definition rejecting_host : Host.host :=
  {| Host.env :=
       table_env demo_docs
         [(py "http://r/page/1/", Responded 200 (py "<![x]>"))];
     Host.parser_rejects := fun html => str_eqb html (py "<![x]>");
     Host.makedirs_raises := fun _ => None |}.

(** A fresh scraper where [dados] is a regular file. *)
Definition dados_is_a_file : state :=
  {| self := __init__ (py "http://q"); trace := []; clock_reads := 0%nat;
     files := {[py "dados" := []]}; dirs := ∅ |}.

(** The text of [q] is the stripped text of the text element of
    [quote_div]. *)
Definition text_of (q : quote) (quote_div : node) : Prop :=
  exists text_node,
    find (py "span") (Some (py "text")) (contents quote_div)
      = Some text_node
    /\ texto q = strip dquote (get_text text_node).

(** ** Properties of [strip] *)

Section Strip.

Variable chars : str.

Lemma lstrip_decompose (s : str) :
  exists p, s = p ++ lstrip chars s
            /\ Forall (fun c => char_in c chars = true) p.
Proof.
  induction s as [|c s IH]; simpl.
  - exists []. split; [reflexivity | constructor].
  - destruct (char_in c chars) eqn:Hc.
    + destruct IH as (p & Hp & Hall). exists (c :: p). split.
      * simpl. congruence.
      * constructor; assumption.
    + exists []. split; [reflexivity | constructor].
Qed.

Lemma lstrip_head (s : str) (c : N) :
  head (lstrip chars s) = Some c -> char_in c chars = false.
Proof.
  induction s as [|d s IH]; simpl; [discriminate |].
  destruct (char_in d chars) eqn:Hd; [exact IH |].
  simpl. intros [= <-]. exact Hd.
Qed.

Lemma lstrip_fixed (s : str) :
  (forall c, head s = Some c -> char_in c chars = false) ->
  lstrip chars s = s.
Proof.
  destruct s as [|c s]; simpl; [reflexivity |].
  intros H. rewrite (H c eq_refl). reflexivity.
Qed.

Lemma rstrip_decompose (s : str) :
  exists p, s = rstrip chars s ++ p
            /\ Forall (fun c => char_in c chars = true) p.
Proof.
  unfold rstrip.
  destruct (lstrip_decompose (rev s)) as (p & Hp & Hall).
  exists (rev p). split.
  - rewrite <- rev_app_distr, <- Hp, rev_involutive. reflexivity.
  - apply Forall_forall. intros c Hc.
    rewrite Forall_forall in Hall. apply Hall.
    apply list_elem_of_In. apply in_rev. apply list_elem_of_In. exact Hc.
Qed.

Lemma last_rev_head (s : str) : last s = head (rev s).
Proof.
  induction s as [|c s IH] using rev_ind; [reflexivity |].
  rewrite last_snoc, rev_app_distr. reflexivity.
Qed.

Lemma rstrip_last (s : str) (c : N) :
  last (rstrip chars s) = Some c -> char_in c chars = false.
Proof.
  unfold rstrip. rewrite last_rev_head, rev_involutive.
  apply lstrip_head.
Qed.

Lemma rstrip_fixed (s : str) :
  (forall c, last s = Some c -> char_in c chars = false) ->
  rstrip chars s = s.
Proof.
  intros H. unfold rstrip. rewrite lstrip_fixed.
  - apply rev_involutive.
  - intros c Hc. apply H. rewrite last_rev_head. exact Hc.
Qed.

(** [rstrip] keeps the first character of what it leaves. *)
Lemma rstrip_head (s : str) (c : N) :
  head (rstrip chars s) = Some c -> head s = Some c.
Proof.
  destruct (rstrip_decompose s) as (p & Hp & _).
  intros H. rewrite Hp.
  destruct (rstrip chars s); [discriminate | exact H].
Qed.

Lemma strip_head (s : str) (c : N) :
  head (strip chars s) = Some c -> char_in c chars = false.
Proof.
  unfold strip. intros H. apply rstrip_head in H.
  apply lstrip_head with (s := s). exact H.
Qed.

Lemma strip_last (s : str) (c : N) :
  last (strip chars s) = Some c -> char_in c chars = false.
Proof. unfold strip. apply rstrip_last. Qed.

Lemma strip_idempotent (s : str) :
  strip chars (strip chars s) = strip chars s.
Proof.
  unfold strip at 1.
  rewrite (lstrip_fixed (strip chars s)) by apply strip_head.
  apply rstrip_fixed. apply strip_last.
Qed.

Lemma strip_decompose (s : str) :
  exists p q, s = p ++ strip chars s ++ q
              /\ Forall (fun c => char_in c chars = true) p
              /\ Forall (fun c => char_in c chars = true) q.
Proof.
  destruct (lstrip_decompose s) as (p & Hp & Hpall).
  destruct (rstrip_decompose (lstrip chars s)) as (q & Hq & Hqall).
  exists p, q. unfold strip. rewrite <- Hq. auto.
Qed.

End Strip.

Lemma all_dquote (p : str) :
  Forall (fun c => char_in c dquote = true) p ->
  p = replicate (length p) 34%N.
Proof.
  induction 1 as [|c p Hc _ IH]; simpl; [reflexivity |].
  unfold char_in, dquote in Hc. simpl in Hc.
  rewrite orb_false_r in Hc. apply N.eqb_eq in Hc.
  subst c. f_equal. exact IH.
Qed.

(** ** How each method runs *)

Lemma fetch_count_app (tr1 tr2 : list event) :
  fetch_count (tr1 ++ tr2) = (fetch_count tr1 + fetch_count tr2)%nat.
Proof. unfold fetch_count. rewrite List.filter_app, length_app. reflexivity. Qed.

Lemma fetch_count_prints (msgs : list message) :
  fetch_count (map Print msgs) = 0%nat.
Proof. induction msgs as [|m msgs IH]; [reflexivity | exact IH]. Qed.

Lemma effects_app (tr1 tr2 : list event) :
  effects (tr1 ++ tr2) = effects tr1 ++ effects tr2.
Proof. unfold effects. apply List.filter_app. Qed.

Lemma effects_prints (msgs : list message) : effects (map Print msgs) = [].
Proof. induction msgs as [|m msgs IH]; [reflexivity | exact IH]. Qed.

Section Runs.

Variable E : environment.

(** [get_page_content] makes one request and never raises. *)
Lemma get_page_content_run (url : str) (st : state) :
  get_page_content E url st =
  match session_get E (fetch_count (trace st)) url with
  | Responded status_code text =>
      if (400 <=? status_code) && (status_code <? 600)
      then (Return None,
            add_events (add_events st [HttpGet url 10])
              [Print (MsgAccessError url
                        (RequestException (HTTPError status_code)))])
      else (Return (Some text), add_events st [HttpGet url 10])
  | Failed e =>
      (Return None,
       add_events (add_events st [HttpGet url 10])
         [Print (MsgAccessError url (RequestException e))])
  end.
Proof.
  unfold get_page_content, try_except, bind, session_get_, raise_for_status.
  destruct (session_get E (fetch_count (trace st)) url)
    as [status_code text | e]; simpl; [| reflexivity].
  destruct ((400 <=? status_code) && (status_code <? 600)); reflexivity.
Qed.

Lemma quote_of_malformed (quote_div : node) (st : state) :
  well_formed quote_div = false ->
  quote_of E quote_div st = (Raise AttributeError, st).
Proof.
  unfold well_formed, quote_of, bind, get_text_of.
  destruct (find (py "span") (Some (py "text")) (contents quote_div));
    [| reflexivity].
  destruct (find (py "small") (Some (py "author")) (contents quote_div));
    [discriminate | reflexivity].
Qed.

Lemma quote_of_well_formed (quote_div : node) (st : state) :
  well_formed quote_div = true ->
  exists q,
    quote_of E quote_div st =
      (Return q,
       {| self := self st; trace := trace st;
          clock_reads := S (clock_reads st); files := files st;
          dirs := dirs st |})
    /\ entry_of q quote_div
    /\ data_coleta q = datetime_now E (clock_reads st).
Proof.
  unfold well_formed, quote_of, bind, get_text_of, entry_of.
  destruct (find (py "span") (Some (py "text")) (contents quote_div))
    as [text_node|]; [| discriminate].
  destruct (find (py "small") (Some (py "author")) (contents quote_div))
    as [author_node|]; [| discriminate].
  intros _. eexists. split; [reflexivity |]. split; [| reflexivity].
  exists text_node, author_node. simpl.
  repeat split; try reflexivity.
  unfold len. rewrite length_map. reflexivity.
Qed.

(** The loop over the containers never raises: it emits the entry of each
    well-formed container, in order, and prints one line for each of the
    others. *)
Lemma for_quote_divs_run (quote_divs : list node) :
  forall (quotes : list quote) (st : state),
  exists (new : list quote) (msgs : list message),
    for_quote_divs E quote_divs quotes st =
      (Return (quotes ++ new),
       {| self := self st; trace := trace st ++ map Print msgs;
          clock_reads := (clock_reads st + length new)%nat;
          files := files st; dirs := dirs st |})
    /\ Forall2 entry_of new (List.filter well_formed quote_divs).
Proof.
  induction quote_divs as [|d rest IH]; intros quotes st.
  - exists [], []. simpl. rewrite !app_nil_r, Nat.add_0_r.
    destruct st; split; [reflexivity | constructor].
  - cbn [for_quote_divs]. unfold bind at 1. unfold try_except.
    destruct (well_formed d) eqn:Hwf.
    + destruct (quote_of_well_formed d st Hwf) as (q & Hrun & Hq & _).
      unfold bind at 1. rewrite Hrun. unfold ret at 1.
      match goal with
      | |- context [for_quote_divs E rest ?qs ?s] =>
          destruct (IH qs s) as (new & msgs & Hrest & Hall)
      end.
      exists (q :: new), msgs. split.
      * rewrite Hrest. simpl. rewrite <- app_assoc. simpl.
        rewrite Nat.add_succ_r. reflexivity.
      * simpl. rewrite Hwf. constructor; assumption.
    + unfold bind at 1. rewrite (quote_of_malformed d st Hwf).
      cbn [is_AttributeError]. unfold bind, print, emit, ret.
      match goal with
      | |- context [for_quote_divs E rest ?qs ?s] =>
          destruct (IH qs s) as (new & msgs & Hrest & Hall)
      end.
      exists new, (MsgQuoteError AttributeError :: msgs). split.
      * rewrite Hrest. simpl. rewrite <- app_assoc. reflexivity.
      * simpl. rewrite Hwf. exact Hall.
Qed.

Lemma parse_quote_page_run (html_content : str) (st : state) :
  exists (qs : list quote) (msgs : list message),
    parse_quote_page E html_content st =
      (Return qs,
       {| self := self st; trace := trace st ++ map Print msgs;
          clock_reads := (clock_reads st + length qs)%nat;
          files := files st; dirs := dirs st |})
    /\ Forall2 entry_of qs
         (List.filter well_formed
            (find_all (py "div") (Some (py "quote"))
               (BeautifulSoup E html_content))).
Proof.
  unfold parse_quote_page.
  destruct (for_quote_divs_run
              (find_all (py "div") (Some (py "quote"))
                 (BeautifulSoup E html_content)) [] st)
    as (new & msgs & Hrun & Hall).
  exists new, msgs. split; [exact Hrun | exact Hall].
Qed.

End Runs.

(** ** The Field Extractor *)

Lemma Forall2_entry_in (qs : list quote) (ds : list node) (q : quote) :
  Forall2 entry_of qs ds -> In q qs -> exists d, In d ds /\ entry_of q d.
Proof.
  induction 1 as [|q' d qs ds Hq _ IH]; simpl; [tauto |].
  intros [<- | Hin].
  - exists d. auto.
  - destruct (IH Hin) as (d' & Hd' & He). exists d'. auto.
Qed.

Lemma filter_malformed_shorter (ds : list node) (d : node) :
  In d ds -> well_formed d = false ->
  (length (List.filter well_formed ds) < length ds)%nat.
Proof.
  intros Hin Hd. induction ds as [|d' ds IH]; simpl in *; [tauto |].
  pose proof (List.filter_length_le well_formed ds) as Hle.
  destruct Hin as [-> | Hin].
  - rewrite Hd. lia.
  - specialize (IH Hin). destruct (well_formed d'); simpl; lia.
Qed.

(** C5, as the code has it: the two [strip] calls in sequence remove every
    leading and every trailing quotation mark of the text, not one layer;
    the second call changes nothing. *)
Theorem strip_twice_removes_all_quotes (text : str) :
  strip dquote (strip dquote text) = strip dquote text
  /\ (exists a b : nat,
        text = replicate a 34%N ++ strip dquote (strip dquote text)
               ++ replicate b 34%N)
  /\ head (strip dquote (strip dquote text)) <> Some 34%N
  /\ last (strip dquote (strip dquote text)) <> Some 34%N.
Proof.
  rewrite strip_idempotent. split; [reflexivity |]. split; [| split].
  - destruct (strip_decompose dquote text) as (p & q & Heq & Hp & Hq).
    exists (length p), (length q).
    rewrite <- (all_dquote p Hp), <- (all_dquote q Hq). exact Heq.
  - intros H. apply strip_head in H. discriminate H.
  - intros H. apply strip_last in H. discriminate H.
Qed.

(** C5 as stated fails: of a text enclosed in two layers of quotation
    marks, both layers go, where one layer would leave the inner marks. *)
Lemma strip_twice_not_one_layer :
  let text := [34; 34; 104; 105; 34; 34]%N in
  strip dquote (strip dquote text) = [104; 105]%N
  /\ strip_one_layer text = [34; 104; 105; 34]%N
  /\ strip dquote (strip dquote text) <> strip_one_layer text.
Proof. repeat split. discriminate. Qed.

(** ** The Pagination Resolver *)

Section Resolver.

Variable E : environment.

Lemma get_next_page_url_no_marker (this : CitationScraper) (html : str) :
  find (py "li") (Some (py "next")) (BeautifulSoup E html) = None ->
  get_next_page_url E this html = Return None.
Proof. unfold get_next_page_url. intros ->. reflexivity. Qed.

Lemma get_next_page_url_no_anchor (this : CitationScraper) (html : str)
    (next_button : node) :
  find (py "li") (Some (py "next")) (BeautifulSoup E html)
    = Some next_button ->
  find (py "a") None (contents next_button) = None ->
  get_next_page_url E this html = Return None.
Proof. unfold get_next_page_url. intros -> ->. reflexivity. Qed.

Lemma get_next_page_url_link (this : CitationScraper) (html : str)
    (next_button next_link : node) (href : str) :
  find (py "li") (Some (py "next")) (BeautifulSoup E html)
    = Some next_button ->
  find (py "a") None (contents next_button) = Some next_link ->
  get_attr next_link (py "href") = Some href ->
  get_next_page_url E this html = Return (Some (base_url this ++ href)).
Proof. unfold get_next_page_url. intros -> -> ->. reflexivity. Qed.

(** The answer depends on the object through [base_url] only. *)
Lemma get_next_page_url_base (this this' : CitationScraper) (html : str) :
  base_url this = base_url this' ->
  get_next_page_url E this html = get_next_page_url E this' html.
Proof. unfold get_next_page_url. intros ->. reflexivity. Qed.

(** What comes back is [None] or starts with the base address. *)
Lemma get_next_page_url_some (this : CitationScraper) (html url : str) :
  get_next_page_url E this html = Return (Some url) ->
  exists href, url = base_url this ++ href.
Proof.
  unfold get_next_page_url.
  destruct (find (py "li") (Some (py "next")) (BeautifulSoup E html))
    as [next_button|]; [| discriminate].
  destruct (find (py "a") None (contents next_button)) as [next_link|];
    [| discriminate].
  destruct (get_attr next_link (py "href")) as [href|]; [| discriminate].
  intros [= <-]. exists href. reflexivity.
Qed.

End Resolver.

(** C7 at the input where the code departs from it: the marker is there,
    its anchor has no [href], and the method raises [KeyError] where
    nothing should come back. *)
Theorem next_without_href_raises :
  find (py "li") (Some (py "next")) (BeautifulSoup demo_env (py "NO-HREF"))
    = Some next_li_without_href
  /\ get_next_page_url demo_env (__init__ (py "http://q")) (py "NO-HREF")
     = Raise (KeyError (py "href")).
Proof. split; reflexivity. Qed.

(** ** The Page Fetcher *)




(** ** The Crawl Driver *)

Section Driver.

Variable E : environment.

Lemma truthy_nonempty (s : str) : s <> [] -> truthy s = true.
Proof. destruct s; [congruence | reflexivity]. Qed.

Lemma fetch_count_snoc_print (tr : list event) (m : message) :
  fetch_count (tr ++ [Print m]) = fetch_count tr.
Proof. rewrite fetch_count_app. cbn. lia. Qed.

(** One turn of the loop on a page that comes back with a body: the page
    is parsed at the clock reading of the start of the turn, its entries
    are added, and the loop goes on with what the resolver returned. *)
Lemma while_pages_page (max_pages : Z) (url : str) (p : Z)
    (st : state) (status_code : Z) (body : str) (next : option str) :
  url <> [] -> p < max_pages ->
  session_get E (fetch_count (trace st)) url = Responded status_code body ->
  ~ (400 <= status_code < 600) ->
  body <> [] ->
  get_next_page_url E (self st) body = Return next ->
  exists (qs : list quote) (msgs : list message) (st1 st2 : state),
    parse_quote_page E body st1 = (Return qs, st2)
    /\ clock_reads st1 = clock_reads st
    /\ clock_reads st2 = (clock_reads st + length qs)%nat
    /\ forall fuel,
         while_pages E (S fuel) max_pages (Some url) p st
         = while_pages E fuel max_pages next (p + 1)
             {| self := {| base_url := base_url (self st);
                           quotes_data := quotes_data (self st) ++ qs |};
                trace := trace st
                         ++ [Print (MsgPage (p + 1)); HttpGet url 10]
                         ++ map Print msgs
                         ++ [Print (MsgCollected (len qs))]
                         ++ (if truthy_opt next then [Sleep 1] else []);
                clock_reads := (clock_reads st + length qs)%nat;
                files := files st; dirs := dirs st |}.
Proof.
  intros Hurl Hp Hget Hok Hbody Hnext.
  set (st0 := add_events st [Print (MsgPage (p + 1))]).
  set (st1 := add_events st0 [HttpGet url 10]).
  destruct (parse_quote_page_run E body st1) as (qs & msgs & Hparse & _).
  eexists qs, msgs, st1, _. split; [exact Hparse |].
  split; [reflexivity |]. split; [reflexivity |].
  intros fuel. cbn [while_pages].
  assert (Hcond : truthy_opt (Some url) && (p <? max_pages) = true).
  { simpl. rewrite (truthy_nonempty url Hurl).
    apply Z.ltb_lt in Hp. rewrite Hp. reflexivity. }
  rewrite Hcond. unfold bind at 1. unfold print at 1, emit at 1.
  fold st0. unfold bind at 1. cbn [the_str].
  rewrite get_page_content_run.
  replace (fetch_count (trace st0)) with (fetch_count (trace st))
    by (symmetry; apply fetch_count_snoc_print).
  rewrite Hget.
  assert (Herr : (400 <=? status_code) && (status_code <? 600) = false).
  { apply andb_false_iff.
    destruct (Z.leb_spec 400 status_code); [right | left; reflexivity].
    apply Z.ltb_ge. lia. }
  rewrite Herr. fold st1.
  cbn [truthy_opt negb]. rewrite (truthy_nonempty body Hbody).
  cbn [negb the_str]. unfold bind at 1. rewrite Hparse.
  unfold bind at 1, extend_quotes_data at 1.
  unfold bind at 1, print at 1, emit at 1.
  unfold bind at 1, get_next_page_url_ at 1.
  cbn [self add_events].
  rewrite (get_next_page_url_base E _ (self st) body) by reflexivity.
  rewrite Hnext.
  unfold bind at 1.
  destruct (truthy_opt next); unfold time_sleep, emit, ret, add_events;
    cbn [self trace clock_reads files dirs st0 st1 add_events];
    rewrite <- ?app_assoc; reflexivity.
Qed.

(** The loop is over when there is no address left or the ceiling is
    reached. *)
Lemma while_pages_no_url (fuel : nat) (max_pages p : Z) (st : state) :
  while_pages E fuel max_pages None p st = (Return tt, st).
Proof. destruct fuel; reflexivity. Qed.

Lemma while_pages_ceiling (fuel : nat) (max_pages p : Z)
    (url : option str) (st : state) :
  max_pages <= p ->
  while_pages E fuel max_pages url p st = (Return tt, st).
Proof.
  intros Hp. apply Z.ltb_ge in Hp.
  destruct fuel; cbn [while_pages]; rewrite Hp, andb_false_r; reflexivity.
Qed.

(** One turn of the loop on a page that comes back empty: the loop ends
    after the request. *)
Lemma while_pages_empty_body (fuel : nat) (max_pages : Z) (url : str)
    (p : Z) (st : state) (status_code : Z) :
  url <> [] -> p < max_pages ->
  session_get E (fetch_count (trace st)) url = Responded status_code [] ->
  ~ (400 <= status_code < 600) ->
  while_pages E (S fuel) max_pages (Some url) p st
  = (Return tt,
     add_events st [Print (MsgPage (p + 1)); HttpGet url 10]).
Proof.
  intros Hurl Hp Hget Hok.
  cbn [while_pages].
  assert (Hcond : truthy_opt (Some url) && (p <? max_pages) = true).
  { simpl. rewrite (truthy_nonempty url Hurl).
    apply Z.ltb_lt in Hp. rewrite Hp. reflexivity. }
  rewrite Hcond. unfold bind at 1. unfold print at 1, emit at 1.
  unfold bind at 1. cbn [the_str].
  rewrite get_page_content_run.
  cbn [add_events trace]. rewrite fetch_count_snoc_print, Hget.
  assert (Herr : (400 <=? status_code) && (status_code <? 600) = false).
  { apply andb_false_iff.
    destruct (Z.leb_spec 400 status_code); [right | left; reflexivity].
    apply Z.ltb_ge. lia. }
  rewrite Herr. cbn [truthy_opt truthy negb]. unfold ret, add_events.
  cbn [self trace clock_reads files dirs]. rewrite <- app_assoc.
  reflexivity.
Qed.


(** What [scrape_all_pages] does around its loop. *)
Lemma scrape_all_pages_run (max_pages : Z) (st st1 : state) :
  while_pages E (Z.to_nat max_pages) max_pages
    (Some (base_url (self st) ++ py "/page/1/")) 0
    (add_events st [Print MsgStart; Print MsgRule]) = (Return tt, st1) ->
  scrape_all_pages E max_pages st
  = (Return (quotes_data (self st1)),
     add_events st1
       [Print MsgRule; Print (MsgDone (len (quotes_data (self st1))))]).
Proof.
  intros Hloop. unfold scrape_all_pages.
  unfold bind at 1, get_self at 1.
  unfold bind at 1, print at 1, emit at 1.
  unfold bind at 1, print at 1, emit at 1.
  unfold bind at 1.
  replace (add_events (add_events st [Print MsgStart]) [Print MsgRule])
    with (add_events st [Print MsgStart; Print MsgRule])
    by (unfold add_events; cbn [self trace clock_reads files dirs];
        rewrite <- app_assoc; reflexivity).
  rewrite Hloop.
  unfold bind, print, emit, get_self, ret, add_events.
  cbn [self trace clock_reads files dirs]. rewrite <- app_assoc.
  reflexivity.
Qed.

Lemma parse_empty_document (st : state) :
  BeautifulSoup E [] = [] ->
  parse_quote_page E [] st = (Return [], st).
Proof. unfold parse_quote_page. intros ->. reflexivity. Qed.

Lemma extracted_from_app (c : nat) (l1 l2 : list str)
    (q1 q2 : list quote) :
  extracted_from E c l1 q1 ->
  extracted_from E (c + length q1) l2 q2 ->
  extracted_from E c (l1 ++ l2) (q1 ++ q2).
Proof.
  induction 1 as [c | c body rest qs qs' st st' Hc Hparse _ IH]; intros H2.
  - simpl in *. rewrite Nat.add_0_r in H2. exact H2.
  - rewrite <- app_assoc. simpl.
    apply (extracted_cons E c body (rest ++ l2) qs (qs' ++ q2) st st' Hc
             Hparse).
    apply IH.
    destruct (parse_quote_page_run E body st) as (qs0 & msgs & Hrun & _).
    rewrite Hrun in Hparse. injection Hparse as <- <-.
    cbn [clock_reads]. rewrite Hc.
    rewrite length_app, Nat.add_assoc in H2. exact H2.
Qed.

(** The loop over pages that each name the next one: after [length bodies]
    turns it stands at the address the last of them named, with the
    entries of all of them added. *)
Lemma while_pages_linked (max_pages : Z) (base : str) :
  base <> [] -> BeautifulSoup E [] = [] ->
  forall (bodies : list str) (url : str) (p : Z) (st : state)
         (url_end : str),
    base_url (self st) = base ->
    linked_pages E (__init__ base) (fetch_count (trace st)) url bodies
      url_end ->
    url <> [] -> p + len bodies <= max_pages ->
    exists (qs : list quote) (st' : state),
      (forall fuel,
         while_pages E (length bodies + fuel) max_pages (Some url) p st
         = while_pages E fuel max_pages (Some url_end) (p + len bodies) st')
      /\ self st' = {| base_url := base;
                       quotes_data := quotes_data (self st) ++ qs |}
      /\ extracted_from E (clock_reads st) bodies qs
      /\ clock_reads st' = (clock_reads st + length qs)%nat
      /\ fetch_count (trace st')
         = (fetch_count (trace st) + length bodies)%nat
      /\ url_end <> [].
Proof.
  intros Hbase Hempty.
  induction bodies as [|body rest IH]; intros url p st url_end Hself Hlink
    Hurl Hmax.
  - simpl in Hlink. subst url_end. exists [], st.
    split; [| split; [| split; [| split; [| split]]]].
    + intros fuel. simpl. unfold len. simpl. rewrite Z.add_0_r.
      reflexivity.
    + rewrite app_nil_r. destruct (self st). simpl in Hself. subst.
      reflexivity.
    + constructor.
    + simpl. lia.
    + simpl. lia.
    + exact Hurl.
  - cbn [linked_pages] in Hlink.
    destruct Hlink as ((code & Hget & Hok) & url' & Hnext & Hrest).
    assert (Hbody : body <> []).
    { intros ->. unfold get_next_page_url in Hnext.
      rewrite Hempty in Hnext. discriminate Hnext. }
    assert (Hurl' : url' <> []).
    { destruct (get_next_page_url_some E _ _ _ Hnext) as (href & ->).
      simpl. destruct base; [congruence | discriminate]. }
    assert (Hnext' : get_next_page_url E (self st) body
                     = Return (Some url')).
    { rewrite <- Hnext. apply get_next_page_url_base. exact Hself. }
    assert (Hp : p < max_pages).
    { unfold len in Hmax. simpl length in Hmax. lia. }
    destruct (while_pages_page max_pages url p st code body (Some url')
                Hurl Hp Hget Hok Hbody Hnext')
      as (qs & msgs & st1 & st2 & Hparse & Hc1 & Hc2 & Hstep).
    cbn [truthy_opt] in Hstep. rewrite (truthy_nonempty url' Hurl') in Hstep.
    set (st3 :=
      {| self := {| base_url := base_url (self st);
                    quotes_data := quotes_data (self st) ++ qs |};
         trace := trace st
                  ++ [Print (MsgPage (p + 1)); HttpGet url 10]
                  ++ map Print msgs
                  ++ [Print (MsgCollected (len qs))] ++ [Sleep 1];
         clock_reads := (clock_reads st + length qs)%nat;
         files := files st; dirs := dirs st |}) in Hstep.
    assert (Hcount : fetch_count (trace st3) = S (fetch_count (trace st))).
    { unfold st3. cbn [trace].
      rewrite !fetch_count_app, fetch_count_prints. cbn. lia. }
    destruct (IH url' (p + 1) st3 url_end) as
      (qs' & st' & Hloop & Hself' & Hext & Hclock & Hfetch & Hend).
    + exact Hself.
    + rewrite Hcount. exact Hrest.
    + exact Hurl'.
    + unfold len in *. simpl length in Hmax. lia.
    + exists (qs ++ qs'), st'.
      split; [| split; [| split; [| split; [| split]]]].
      * intros fuel. cbn [length Nat.add].
        rewrite Hstep, Hloop.
        f_equal. unfold len. simpl length. lia.
      * rewrite Hself'. cbn [st3 self quotes_data].
        rewrite app_assoc. reflexivity.
      * apply (extracted_cons E (clock_reads st) body rest qs qs' st1 st2
                 Hc1 Hparse).
        rewrite Hc2. exact Hext.
      * rewrite Hclock. cbn [st3 clock_reads]. rewrite length_app. lia.
      * rewrite Hfetch, Hcount. simpl length. lia.
      * exact Hend.
Qed.

(** C1: when the first [k - 1] pages each name the next one, the [k]-th
    page comes back and names none, and [k] is within the ceiling, a fresh
    scraper makes exactly [k] requests and returns, in order, what
    [parse_quote_page] extracts from the pages 1 to [k]. *)
Theorem crawl_stops_at_page_without_next (max_pages : Z) (base : str)
    (st : state) (prefix : list str) (url_k body_k : str) :
  base <> [] ->
  BeautifulSoup E [] = [] ->
  self st = __init__ base ->
  linked_pages E (__init__ base) (fetch_count (trace st))
    (base ++ py "/page/1/") prefix url_k ->
  fetch_ok E (fetch_count (trace st) + length prefix) url_k body_k ->
  get_next_page_url E (__init__ base) body_k = Return None ->
  len prefix + 1 <= max_pages ->
  exists (qs : list quote) (st' : state),
    scrape_all_pages E max_pages st = (Return qs, st')
    /\ extracted_from E (clock_reads st) (prefix ++ [body_k]) qs
    /\ quotes_data (self st') = qs
    /\ fetch_count (trace st')
       = (fetch_count (trace st) + (length prefix + 1))%nat.
Proof.
  intros Hbase Hempty Hself Hlink (code & Hget & Hok) Hnone Hmax.
  set (st_a := add_events st [Print MsgStart; Print MsgRule]).
  assert (Hbase_a : base_url (self st_a) = base).
  { unfold st_a. cbn [add_events self]. rewrite Hself. reflexivity. }
  assert (Hcount_a : fetch_count (trace st_a) = fetch_count (trace st)).
  { unfold st_a. cbn [add_events trace]. rewrite fetch_count_app. cbn. lia. }
  assert (Hurl1 : base ++ py "/page/1/" <> []).
  { destruct base; [congruence | discriminate]. }
  destruct (while_pages_linked max_pages base Hbase Hempty prefix
              (base ++ py "/page/1/") 0 st_a url_k Hbase_a)
    as (qs & st1 & Hloop & Hself1 & Hext & Hclock & Hfetch & Hend).
  { rewrite Hcount_a. exact Hlink. }
  { exact Hurl1. }
  { lia. }
  unfold st_a in Hself1, Hext, Hclock.
  cbn [add_events self quotes_data clock_reads] in Hself1, Hext, Hclock.
  rewrite Hself in Hself1. cbn [__init__ quotes_data app] in Hself1.
  rewrite Hcount_a in Hfetch.
  assert (Hp : 0 + len prefix < max_pages) by lia.
  rewrite <- Hfetch in Hget.
  assert (Hfuel : Z.to_nat max_pages
                  = (length prefix
                     + S (Z.to_nat max_pages - length prefix - 1))%nat).
  { unfold len in Hmax. lia. }
  assert (Hbase_eq : base_url (self st) = base).
  { rewrite Hself. reflexivity. }
  destruct body_k as [|c body_k'].
  - (* the last page is empty *)
    pose proof (while_pages_empty_body
                  (Z.to_nat max_pages - length prefix - 1) max_pages url_k
                  (0 + len prefix) st1 code Hend Hp Hget Hok) as Hlast.
    eexists _, _. split; [| split; [| split]].
    + apply scrape_all_pages_run. rewrite Hbase_eq. fold st_a.
      rewrite Hfuel, Hloop, Hlast. reflexivity.
    + cbn [add_events self]. rewrite Hself1. cbn [quotes_data].
      rewrite <- (app_nil_r qs).
      apply extracted_from_app; [exact Hext |].
      apply (extracted_cons E _ [] [] [] [] st1 st1).
      * exact Hclock.
      * apply parse_empty_document. exact Hempty.
      * constructor.
    + reflexivity.
    + cbn [add_events trace]. rewrite !fetch_count_app, Hfetch. cbn. lia.
  - (* the last page has a body *)
    assert (Hnone1 : get_next_page_url E (self st1) (c :: body_k')
                     = Return None).
    { rewrite <- Hnone. apply get_next_page_url_base.
      rewrite Hself1. reflexivity. }
    destruct (while_pages_page max_pages url_k (0 + len prefix) st1 code
                (c :: body_k') None Hend Hp Hget Hok ltac:(discriminate)
                Hnone1)
      as (qk & msgs & sa & sb & Hparse & Hca & Hcb & Hstep).
    eexists _, _. split; [| split; [| split]].
    + apply scrape_all_pages_run. rewrite Hbase_eq. fold st_a.
      rewrite Hfuel, Hloop, Hstep, while_pages_no_url. reflexivity.
    + cbn [self]. rewrite Hself1. cbn [quotes_data].
      apply extracted_from_app; [exact Hext |].
      rewrite <- (app_nil_r qk).
      apply (extracted_cons E _ (c :: body_k') [] qk [] sa sb).
      * rewrite Hca, Hclock. reflexivity.
      * exact Hparse.
      * constructor.
    + reflexivity.
    + cbn [add_events trace truthy_opt].
      rewrite !fetch_count_app, fetch_count_prints, Hfetch. cbn. lia.
Qed.


Lemma get_next_page_url_has_fuel (this : CitationScraper) (html : str) :
  get_next_page_url E this html <> OutOfFuel.
Proof.
  unfold get_next_page_url.
  destruct (find (py "li") (Some (py "next")) (BeautifulSoup E html))
    as [next_button|]; [| discriminate].
  destruct (find (py "a") None (contents next_button)) as [next_link|];
    [| discriminate].
  destruct (get_attr next_link (py "href")); discriminate.
Qed.

(** Any turn of the loop makes one request; then the loop ends, or the
    resolver raises, or the loop goes on with one page more on the
    count. *)
Lemma while_pages_turn (fuel : nat) (max_pages : Z) (url : option str)
    (p : Z) (st : state) :
  truthy_opt url && (p <? max_pages) = true ->
  exists st',
    fetch_count (trace st') = S (fetch_count (trace st))
    /\ (while_pages E (S fuel) max_pages url p st = (Return tt, st')
        \/ (exists e,
              while_pages E (S fuel) max_pages url p st = (Raise e, st'))
        \/ (exists next,
              while_pages E (S fuel) max_pages url p st
              = while_pages E fuel max_pages next (p + 1) st')).
Proof.
  intros Hcond.
  remember (while_pages E (S fuel) max_pages url p st) as r eqn:Hr.
  cbn [while_pages] in Hr. rewrite Hcond in Hr.
  unfold bind at 1 in Hr. unfold print at 1, emit at 1 in Hr.
  unfold bind at 1 in Hr.
  rewrite get_page_content_run in Hr.
  cbn [add_events trace] in Hr. rewrite fetch_count_snoc_print in Hr.
  destruct (session_get E (fetch_count (trace st)) (the_str url))
    as [code text | e].
  - destruct ((400 <=? code) && (code <? 600)).
    + subst r. eexists. split; [| left; reflexivity].
      cbn [add_events trace]. rewrite !fetch_count_app. cbn. lia.
    + destruct text as [|c text].
      * subst r. eexists. split; [| left; reflexivity].
        cbn [add_events trace]. rewrite !fetch_count_app. cbn. lia.
      * cbn [truthy_opt truthy negb the_str] in Hr.
        unfold bind at 1 in Hr.
        match type of Hr with
        | context [parse_quote_page E ?b ?s] =>
            destruct (parse_quote_page_run E b s)
              as (qs & msgs & Hparse & _)
        end.
        rewrite Hparse in Hr.
        unfold bind at 1, extend_quotes_data at 1 in Hr.
        unfold bind at 1, print at 1, emit at 1 in Hr.
        unfold bind at 1, get_next_page_url_ at 1 in Hr.
        match type of Hr with
        | context [get_next_page_url E ?t ?b] =>
            pose proof (get_next_page_url_has_fuel t b) as Hfuel;
            destruct (get_next_page_url E t b) as [next | e |]
        end.
        -- unfold bind at 1 in Hr.
           destruct (truthy_opt next); unfold time_sleep, emit, ret in Hr;
             subst r;
             (eexists; split; [| right; right; exists next; reflexivity]);
             cbn [add_events trace self clock_reads files dirs];
             rewrite !fetch_count_app, fetch_count_prints; cbn; lia.
        -- subst r. eexists. split; [| right; left; exists e; reflexivity].
           cbn [add_events trace self clock_reads files dirs].
           rewrite !fetch_count_app, fetch_count_prints. cbn. lia.
        -- congruence.
  - subst r. eexists. split; [| left; reflexivity].
    cbn [add_events trace]. rewrite !fetch_count_app. cbn. lia.
Qed.

(** The loop makes at most [max_pages - pages_scraped] requests, and with
    that many turns allowed it comes to its end. *)
Lemma while_pages_fetch_bound (fuel : nat) :
  forall (max_pages : Z) (url : option str) (p : Z) (st : state),
    (fetch_count (trace (snd (while_pages E fuel max_pages url p st)))
     <= fetch_count (trace st) + Z.to_nat (max_pages - p))%nat
    /\ ((Z.to_nat (max_pages - p) <= fuel)%nat ->
        fst (while_pages E fuel max_pages url p st) <> OutOfFuel).
Proof.
  induction fuel as [|fuel IH]; intros max_pages url p st.
  - cbn [while_pages].
    destruct (truthy_opt url && (p <? max_pages)) eqn:Hcond.
    + apply andb_true_iff in Hcond. destruct Hcond as [_ Hp].
      apply Z.ltb_lt in Hp. cbn [fst snd]. split; [lia |]. lia.
    + cbn [fst snd ret]. split; [lia | discriminate].
  - destruct (truthy_opt url && (p <? max_pages)) eqn:Hcond.
    + destruct (while_pages_turn fuel max_pages url p st Hcond)
        as (st' & Hcount & [Hrun | [(e & Hrun) | (next & Hrun)]]);
        rewrite Hrun.
      * apply andb_true_iff in Hcond. destruct Hcond as [_ Hp].
        apply Z.ltb_lt in Hp. cbn [fst snd].
        split; [lia | discriminate].
      * apply andb_true_iff in Hcond. destruct Hcond as [_ Hp].
        apply Z.ltb_lt in Hp. cbn [fst snd].
        split; [lia | discriminate].
      * apply andb_true_iff in Hcond. destruct Hcond as [_ Hp].
        apply Z.ltb_lt in Hp.
        destruct (IH max_pages next (p + 1) st') as [Hb Ht].
        split; [lia |]. intros Hfuel. apply Ht. lia.
    + cbn [while_pages]. rewrite Hcond. cbn [fst snd ret].
      split; [lia | discriminate].
Qed.

(** [scrape_all_pages] comes to an end: it returns or raises. *)
Lemma scrape_all_pages_has_fuel (max_pages : Z) (st : state) :
  fst (scrape_all_pages E max_pages st) <> OutOfFuel.
Proof.
  unfold scrape_all_pages.
  unfold bind at 1, get_self at 1.
  unfold bind at 1, print at 1, emit at 1.
  unfold bind at 1, print at 1, emit at 1.
  unfold bind at 1.
  match goal with
  | |- context [while_pages E ?f ?m ?u ?p ?s] =>
      pose proof (proj2 (while_pages_fetch_bound f m u p s)) as Hfuel;
      destruct (while_pages E f m u p s) as [[[] | e |] st1]
  end.
  - discriminate.
  - discriminate.
  - exfalso. apply Hfuel; [lia | reflexivity].
Qed.

(** C2: with a ceiling of 0 or 1 page, [scrape_all_pages] makes at most
    one request, whatever the pages hold and however the run ends. *)
Theorem at_most_one_fetch_with_ceiling_0_or_1 (max_pages : Z)
    (st : state) :
  max_pages = 0 \/ max_pages = 1 ->
  (fetch_count (trace (snd (scrape_all_pages E max_pages st)))
   <= fetch_count (trace st) + 1)%nat.
Proof.
  intros Hmax. unfold scrape_all_pages.
  unfold bind at 1, get_self at 1.
  unfold bind at 1, print at 1, emit at 1.
  unfold bind at 1, print at 1, emit at 1.
  unfold bind at 1.
  match goal with
  | |- context [while_pages E ?f ?m ?u ?p ?s] =>
      pose proof (proj1 (while_pages_fetch_bound f m u p s)) as Hbound;
      destruct (while_pages E f m u p s) as [[[] | e |] st1]
  end;
    cbn [snd add_events trace] in Hbound;
    rewrite !fetch_count_app in Hbound; cbn in Hbound.
  - unfold bind, print, emit, get_self, ret.
    cbn [snd add_events trace]. rewrite !fetch_count_app. cbn. lia.
  - cbn [snd]. lia.
  - cbn [snd]. lia.
Qed.

End Driver.

(** The small site has two pages, the second without a next link: two
    requests under a ceiling of five. *)
Lemma crawl_stops_at_page_without_next_witness :
  exists (qs : list quote) (st' : state),
    scrape_all_pages demo_env 5 (start_state (py "http://q"))
      = (Return qs, st')
    /\ fetch_count (trace st') = 2%nat.
Proof.
  destruct (crawl_stops_at_page_without_next demo_env 5 (py "http://q")
              (start_state (py "http://q")) [py "P1"]
              (py "http://q/page/2/") (py "P2"))
    as (qs & st' & Hrun & _ & _ & Hcount).
  - discriminate.
  - reflexivity.
  - reflexivity.
  - split.
    + exists 200. split; [reflexivity | lia].
    + exists (py "http://q/page/2/"). split; reflexivity.
  - exists 200. split; [reflexivity | lia].
  - reflexivity.
  - unfold len. simpl. lia.
  - exists qs, st'. split; [exact Hrun | exact Hcount].
Defined.

(** The small site under a ceiling of one page. *)
Lemma at_most_one_fetch_with_ceiling_0_or_1_witness :
  (fetch_count
     (trace (snd (scrape_all_pages demo_env 1
                    (start_state (py "http://q")))))
   <= 0 + 1)%nat.
Proof.
  apply (at_most_one_fetch_with_ceiling_0_or_1 demo_env 1
           (start_state (py "http://q"))).
  right. reflexivity.
Defined.

(** C6 at the input where the code departs from it: the ceiling is one
    page and the page names a next one; the only request is followed by
    the pause, after which nothing is fetched. *)
Theorem pause_follows_last_fetch_at_ceiling :
  get_next_page_url demo_env (__init__ (py "http://q")) (py "P1")
    = Return (Some (py "http://q/page/2/"))
  /\ effects
       (trace (snd (scrape_all_pages demo_env 1
                      (start_state (py "http://q")))))
     = [HttpGet (py "http://q/page/1/") 10; Sleep 1]
  /\ exists q,
       fst (scrape_all_pages demo_env 1 (start_state (py "http://q")))
       = Return [q].
Proof.
  split; [reflexivity |]. split; [reflexivity |].
  eexists. reflexivity.
Qed.


(** * Further properties *)

(** ** More on the Field Extractor *)

Section ExtractorDetails.

Variable E : environment.

(** The loop over the containers in full: the entries, their time stamps,
    and the lines printed. *)
Lemma for_quote_divs_detail (quote_divs : list node) :
  forall (quotes : list quote) (st : state),
  exists new : list quote,
    for_quote_divs E quote_divs quotes st =
      (Return (quotes ++ new),
       {| self := self st;
          trace := trace st
                   ++ replicate
                        (length quote_divs
                         - length (List.filter well_formed quote_divs))
                        (Print (MsgQuoteError AttributeError));
          clock_reads := (clock_reads st + length new)%nat;
          files := files st; dirs := dirs st |})
    /\ Forall2 entry_of new (List.filter well_formed quote_divs)
    /\ map data_coleta new
       = map (datetime_now E) (seq (clock_reads st) (length new)).
Proof.
  induction quote_divs as [|d rest IH]; intros quotes st.
  - exists []. simpl. rewrite !app_nil_r, Nat.add_0_r.
    destruct st; split; [reflexivity | split; [constructor | reflexivity]].
  - cbn [for_quote_divs]. unfold bind at 1. unfold try_except.
    pose proof (List.filter_length_le well_formed rest) as Hle.
    destruct (well_formed d) eqn:Hwf.
    + destruct (quote_of_well_formed E d st Hwf) as (q & Hrun & Hq & Hstamp).
      unfold bind at 1. rewrite Hrun. unfold ret at 1.
      match goal with
      | |- context [for_quote_divs E rest ?qs ?s] =>
          destruct (IH qs s) as (new & Hrest & Hall & Hstamps)
      end.
      exists (q :: new). split; [| split].
      * rewrite Hrest. cbn [self trace clock_reads files dirs].
        rewrite <- app_assoc. cbn [List.filter length app]. rewrite Hwf.
        cbn [length]. rewrite Nat.add_succ_r. reflexivity.
      * cbn [List.filter]. rewrite Hwf. constructor; assumption.
      * cbn [map length seq]. rewrite Hstamp. f_equal.
        cbn [clock_reads] in Hstamps. exact Hstamps.
    + unfold bind at 1. rewrite (quote_of_malformed E d st Hwf).
      cbn [is_AttributeError]. unfold bind, print, emit, ret.
      match goal with
      | |- context [for_quote_divs E rest ?qs ?s] =>
          destruct (IH qs s) as (new & Hrest & Hall & Hstamps)
      end.
      exists new. split; [| split].
      * rewrite Hrest. cbn [add_events self trace clock_reads files dirs].
        rewrite <- app_assoc. cbn [List.filter length app]. rewrite Hwf.
        replace (S (length rest) - length (List.filter well_formed rest))%nat
          with (S (length rest - length (List.filter well_formed rest)))
          by lia.
        reflexivity.
      * cbn [List.filter]. rewrite Hwf. exact Hall.
      * exact Hstamps.
Qed.

(** X1: [parse_quote_page] reads the clock once for each entry it emits
    and stamps the entries in order: the [i]-th entry of a page carries
    the [i]-th reading made after the call began, and a skipped container
    costs no reading. *)
Theorem entries_are_stamped_in_order (html_content : str) (st : state) :
  exists (qs : list quote) (st' : state),
    parse_quote_page E html_content st = (Return qs, st')
    /\ clock_reads st' = (clock_reads st + length qs)%nat
    /\ map data_coleta qs
       = map (datetime_now E) (seq (clock_reads st) (length qs)).
Proof.
  unfold parse_quote_page.
  destruct (for_quote_divs_detail
              (find_all (py "div") (Some (py "quote"))
                 (BeautifulSoup E html_content)) [] st)
    as (new & Hrun & _ & Hstamps).
  eexists new, _. split; [exact Hrun |]. split; [reflexivity | exact Hstamps].
Qed.

(** X2: [parse_quote_page] prints one error line for each container it
    skips and nothing else, makes no request and no pause, and leaves the
    object and the file system as they are. *)
Theorem one_error_line_per_skipped_container (html_content : str)
    (st : state) :
  exists (qs : list quote) (st' : state),
    parse_quote_page E html_content st = (Return qs, st')
    /\ trace st'
       = trace st
         ++ replicate
              (length (find_all (py "div") (Some (py "quote"))
                         (BeautifulSoup E html_content))
               - length qs)
              (Print (MsgQuoteError AttributeError))
    /\ (length qs
        <= length (find_all (py "div") (Some (py "quote"))
                     (BeautifulSoup E html_content)))%nat
    /\ self st' = self st /\ files st' = files st /\ dirs st' = dirs st.
Proof.
  unfold parse_quote_page.
  destruct (for_quote_divs_detail
              (find_all (py "div") (Some (py "quote"))
                 (BeautifulSoup E html_content)) [] st)
    as (new & Hrun & Hall & _).
  eexists new, _. split; [exact Hrun |].
  cbn [self trace files dirs].
  rewrite (Forall2_length _ _ _ Hall).
  split; [reflexivity |]. split; [apply List.filter_length_le |].
  repeat split.
Qed.

End ExtractorDetails.

(** ** Word counts *)

Lemma split_from_nonempty_tokens (s : str) :
  forall cur : str, Forall (fun t : list N => t <> []) (split_from cur s).
Proof.
  induction s as [|c s IH]; intros cur; simpl.
  - destruct cur as [|d cur]; [constructor |].
    constructor; [| constructor].
    intros H. apply (f_equal (@length N)) in H.
    rewrite length_rev in H. discriminate H.
  - destruct (isspace c); [| apply IH].
    destruct cur as [|d cur]; [apply IH |].
    constructor; [| apply IH].
    intros H. apply (f_equal (@length N)) in H.
    rewrite length_rev in H. discriminate H.
Qed.

Lemma split_from_concat (s : str) :
  forall cur : str,
    concat (split_from cur s)
    = rev cur ++ List.filter (fun c => negb (isspace c)) s.
Proof.
  induction s as [|c s IH]; intros cur; simpl.
  - destruct cur; simpl; rewrite ?app_nil_r; reflexivity.
  - destruct (isspace c); simpl.
    + destruct cur as [|d cur]; [apply IH |].
      cbn [concat]. rewrite IH. reflexivity.
    + rewrite IH. simpl. rewrite <- app_assoc. reflexivity.
Qed.

Lemma nonempty_tokens_length (l : list (list N)) :
  Forall (fun t : list N => t <> []) l ->
  (length l <= length (concat l))%nat.
Proof.
  induction 1 as [|t l Ht _ IH]; simpl; [lia |].
  rewrite length_app. destruct t; [congruence | simpl; lia].
Qed.

Lemma split_from_pending (s : str) (d : N) (cur : str) :
  split_from (d :: cur) s <> [].
Proof.
  revert d cur. induction s as [|c s IH]; intros d cur; simpl.
  - discriminate.
  - destruct (isspace c); [discriminate | apply IH].
Qed.

Lemma split_none_iff_blank (s : str) :
  split s = [] <-> forallb isspace s = true.
Proof.
  unfold split. induction s as [|c s IH]; simpl.
  - tauto.
  - destruct (isspace c); simpl; [exact IH |].
    split; [| discriminate].
    intros H. exfalso. exact (split_from_pending s c [] H).
Qed.

(** X3: the word count of an emitted entry is the number of
    whitespace-separated words of its text as emitted: it is at least 0,
    at most the number of characters of the text, and 0 exactly when the
    text holds nothing but whitespace. *)
Theorem word_count_of_emitted_text (E : environment) (html_content : str)
    (st : state) :
  exists (qs : list quote) (st' : state),
    parse_quote_page E html_content st = (Return qs, st')
    /\ forall q, In q qs ->
         num_palavras q = len (split (texto q))
         /\ 0 <= num_palavras q <= len (texto q)
         /\ (num_palavras q = 0 <-> forallb isspace (texto q) = true).
Proof.
  destruct (parse_quote_page_run E html_content st)
    as (qs & msgs & Hrun & Hall).
  eexists qs, _. split; [exact Hrun |].
  intros q Hq.
  destruct (Forall2_entry_in _ _ q Hall Hq) as (d & _ & He).
  destruct He as (tn & an & _ & _ & _ & _ & _ & _ & Hwords).
  rewrite Hwords. split; [reflexivity |]. split; [| split].
  - unfold len, split.
    pose proof (nonempty_tokens_length _
                  (split_from_nonempty_tokens (texto q) [])) as H1.
    rewrite split_from_concat in H1. simpl in H1.
    pose proof (List.filter_length_le (fun c => negb (isspace c)) (texto q)).
    lia.
  - intros H. apply split_none_iff_blank.
    unfold len in H. destruct (split (texto q)); [reflexivity |].
    simpl in H. lia.
  - intros H. apply split_none_iff_blank in H. rewrite H. reflexivity.
Qed.

(** ** More on the Crawl Driver *)

Section DriverDetails.

Variable E : environment.

Lemma while_pages_falsy (fuel : nat) (max_pages p : Z) (url : option str)
    (st : state) :
  truthy_opt url = false ->
  while_pages E fuel max_pages url p st = (Return tt, st).
Proof. intros H. destruct fuel; cbn [while_pages]; rewrite H; reflexivity. Qed.

Lemma self_eta (this : CitationScraper) :
  this = {| base_url := base_url this;
            quotes_data := quotes_data this ++ [] |}.
Proof. destruct this. simpl. rewrite app_nil_r. reflexivity. Qed.

(** The resolver raises nothing but the [KeyError] of the missing
    [href]. *)
Lemma get_next_page_url_raises (this : CitationScraper) (html : str)
    (e : exn) :
  get_next_page_url E this html = Raise e -> e = KeyError (py "href").
Proof.
  unfold get_next_page_url.
  destruct (find (py "li") (Some (py "next")) (BeautifulSoup E html))
    as [next_button|]; [| discriminate].
  destruct (find (py "a") None (contents next_button)) as [next_link|];
    [| discriminate].
  destruct (get_attr next_link (py "href")); [discriminate |].
  intros [= <-]. reflexivity.
Qed.

(** Any turn of the loop, with what it does to the object, the clock, the
    file system and the sequence of requests and pauses. *)
Lemma while_pages_turn_detail (fuel : nat) (max_pages : Z)
    (url : option str) (p : Z) (st : state) :
  truthy_opt url && (p <? max_pages) = true ->
  exists (st' : state) (new : list quote),
    self st' = {| base_url := base_url (self st);
                  quotes_data := quotes_data (self st) ++ new |}
    /\ files st' = files st /\ dirs st' = dirs st
    /\ clock_reads st' = (clock_reads st + length new)%nat
    /\ ((while_pages E (S fuel) max_pages url p st = (Return tt, st')
         /\ effects (trace st')
            = effects (trace st) ++ [HttpGet (the_str url) 10])
        \/ (exists e,
              while_pages E (S fuel) max_pages url p st = (Raise e, st')
              /\ e = KeyError (py "href")
              /\ effects (trace st')
                 = effects (trace st) ++ [HttpGet (the_str url) 10])
        \/ (exists next,
              while_pages E (S fuel) max_pages url p st
              = while_pages E fuel max_pages next (p + 1) st'
              /\ effects (trace st')
                 = effects (trace st)
                   ++ HttpGet (the_str url) 10
                      :: (if truthy_opt next then [Sleep 1] else []))).
Proof.
  intros Hcond.
  remember (while_pages E (S fuel) max_pages url p st) as r eqn:Hr.
  cbn [while_pages] in Hr. rewrite Hcond in Hr.
  unfold bind at 1 in Hr. unfold print at 1, emit at 1 in Hr.
  unfold bind at 1 in Hr.
  rewrite get_page_content_run in Hr.
  cbn [add_events trace] in Hr. rewrite fetch_count_snoc_print in Hr.
  destruct (session_get E (fetch_count (trace st)) (the_str url))
    as [code text | e].
  - destruct ((400 <=? code) && (code <? 600)).
    + subst r. eexists _, [].
      split; [| split; [| split; [| split]]]; cycle 4.
      { left. split; [reflexivity |].
        cbn [add_events trace]. rewrite !effects_app. cbn.
        rewrite ?app_nil_r. reflexivity. }
      all: cbn [add_events self files dirs clock_reads].
      * apply self_eta.
      * reflexivity.
      * reflexivity.
      * simpl; lia.
    + destruct text as [|c text].
      * subst r. eexists _, [].
        split; [| split; [| split; [| split]]]; cycle 4.
        { left. split; [reflexivity |].
          cbn [add_events trace]. rewrite !effects_app. cbn.
          rewrite ?app_nil_r. reflexivity. }
        all: cbn [add_events self files dirs clock_reads].
        -- apply self_eta.
        -- reflexivity.
        -- reflexivity.
        -- simpl; lia.
      * cbn [truthy_opt truthy negb the_str] in Hr.
        unfold bind at 1 in Hr.
        match type of Hr with
        | context [parse_quote_page E ?b ?s] =>
            destruct (parse_quote_page_run E b s)
              as (qs & msgs & Hparse & _)
        end.
        rewrite Hparse in Hr.
        unfold bind at 1, extend_quotes_data at 1 in Hr.
        unfold bind at 1, print at 1, emit at 1 in Hr.
        unfold bind at 1, get_next_page_url_ at 1 in Hr.
        match type of Hr with
        | context [get_next_page_url E ?t ?b] =>
            pose proof (get_next_page_url_has_fuel E t b) as Hfuel;
            pose proof (get_next_page_url_raises t b) as Hkey;
            destruct (get_next_page_url E t b) as [next | e |]
        end.
        -- unfold bind at 1 in Hr.
           destruct (truthy_opt next) eqn:Hnext;
             unfold time_sleep, emit, ret in Hr; subst r.
           ++ eexists _, qs.
              split; [| split; [| split; [| split]]]; cycle 4.
              { right; right. exists next. rewrite Hnext.
                split; [reflexivity |].
                cbn [add_events trace self files dirs clock_reads].
                rewrite !effects_app, effects_prints. cbn.
                rewrite ?app_nil_r, <- ?app_assoc. reflexivity. }
              all: reflexivity.
           ++ eexists _, qs.
              split; [| split; [| split; [| split]]]; cycle 4.
              { right; right. exists next. rewrite Hnext.
                split; [reflexivity |].
                cbn [add_events trace self files dirs clock_reads].
                rewrite !effects_app, effects_prints. cbn.
                rewrite ?app_nil_r, <- ?app_assoc. reflexivity. }
              all: reflexivity.
        -- subst r. eexists _, qs.
           split; [| split; [| split; [| split]]]; cycle 4.
           { right; left. exists e. split; [reflexivity |].
             split; [exact (Hkey e eq_refl) |].
             cbn [add_events trace self files dirs clock_reads].
             rewrite !effects_app, effects_prints. cbn.
             rewrite ?app_nil_r. reflexivity. }
           all: reflexivity.
        -- congruence.
  - subst r. eexists _, [].
    split; [| split; [| split; [| split]]]; cycle 4.
    { left. split; [reflexivity |].
      cbn [add_events trace]. rewrite !effects_app. cbn.
      rewrite ?app_nil_r. reflexivity. }
    all: cbn [add_events self files dirs clock_reads].
    + apply self_eta.
    + reflexivity.
    + reflexivity.
    + simpl; lia.
Qed.

(** What the loop keeps, however it ends. *)
Lemma while_pages_keeps (fuel : nat) :
  forall (max_pages : Z) (url : option str) (p : Z) (st : state),
  exists (new : list quote) (added : list event),
    self (snd (while_pages E fuel max_pages url p st))
    = {| base_url := base_url (self st);
         quotes_data := quotes_data (self st) ++ new |}
    /\ files (snd (while_pages E fuel max_pages url p st)) = files st
    /\ dirs (snd (while_pages E fuel max_pages url p st)) = dirs st
    /\ clock_reads (snd (while_pages E fuel max_pages url p st))
       = (clock_reads st + length new)%nat
    /\ effects (trace (snd (while_pages E fuel max_pages url p st)))
       = effects (trace st) ++ added
    /\ paced added.
Proof.
  induction fuel as [|fuel IH]; intros max_pages url p st.
  - exists [], []. cbn [while_pages].
    destruct (truthy_opt url && (p <? max_pages)); cbn [snd ret];
      (split; [apply self_eta |]); (split; [reflexivity |]);
      (split; [reflexivity |]); (split; [simpl; lia |]);
      (split; [rewrite app_nil_r; reflexivity | constructor]).
  - destruct (truthy_opt url && (p <? max_pages)) eqn:Hcond.
    + destruct (while_pages_turn_detail fuel max_pages url p st Hcond)
        as (st' & new & Hself & Hfiles & Hdirs & Hclock &
            [[Hrun Heff] | [(e & Hrun & _ & Heff) | (next & Hrun & Heff)]]);
        rewrite Hrun.
      * exists new, [HttpGet (the_str url) 10]. cbn [snd].
        repeat (split; [assumption |]). constructor.
      * exists new, [HttpGet (the_str url) 10]. cbn [snd].
        repeat (split; [assumption |]). constructor.
      * destruct (truthy_opt next) eqn:Hnext.
        -- destruct (IH max_pages next (p + 1) st')
             as (new' & added' & Hself' & Hfiles' & Hdirs' & Hclock' &
                 Heff' & Hpaced).
           exists (new ++ new'),
                  (HttpGet (the_str url) 10 :: Sleep 1 :: added').
           split; [| split; [| split; [| split; [| split]]]].
           ++ rewrite Hself', Hself. cbn [base_url quotes_data].
              rewrite app_assoc. reflexivity.
           ++ congruence.
           ++ congruence.
           ++ rewrite Hclock', Hclock, length_app. lia.
           ++ rewrite Heff', Heff, <- app_assoc. reflexivity.
           ++ constructor. exact Hpaced.
        -- rewrite (while_pages_falsy fuel max_pages (p + 1) next st' Hnext).
           exists new, [HttpGet (the_str url) 10]. cbn [snd].
           repeat (split; [assumption |]). constructor.
    + exists [], []. cbn [while_pages]. rewrite Hcond. cbn [snd ret].
      split; [apply self_eta |]. split; [reflexivity |].
      split; [reflexivity |]. split; [simpl; lia |].
      split; [rewrite app_nil_r; reflexivity | constructor].
Qed.

(** [scrape_all_pages] in terms of its loop. *)
Lemma scrape_all_pages_cases (max_pages : Z) (st : state) :
  scrape_all_pages E max_pages st
  = match while_pages E (Z.to_nat max_pages) max_pages
            (Some (base_url (self st) ++ py "/page/1/")) 0
            (add_events st [Print MsgStart; Print MsgRule]) with
    | (Return _, st1) =>
        (Return (quotes_data (self st1)),
         add_events st1
           [Print MsgRule; Print (MsgDone (len (quotes_data (self st1))))])
    | (Raise e, st1) => (Raise e, st1)
    | (OutOfFuel, st1) => (OutOfFuel, st1)
    end.
Proof.
  unfold scrape_all_pages.
  unfold bind at 1, get_self at 1.
  unfold bind at 1, print at 1, emit at 1.
  unfold bind at 1, print at 1, emit at 1.
  unfold bind at 1.
  replace (add_events (add_events st [Print MsgStart]) [Print MsgRule])
    with (add_events st [Print MsgStart; Print MsgRule])
    by (unfold add_events; cbn [self trace clock_reads files dirs];
        rewrite <- app_assoc; reflexivity).
  destruct (while_pages E (Z.to_nat max_pages) max_pages
              (Some (base_url (self st) ++ py "/page/1/")) 0
              (add_events st [Print MsgStart; Print MsgRule]))
    as [[[] | e |] st1]; [| reflexivity | reflexivity].
  unfold bind, print, emit, get_self, ret, add_events.
  cbn [self trace clock_reads files dirs]. rewrite <- app_assoc.
  reflexivity.
Qed.

(** X4: a crawl only adds to what the object holds: however it ends,
    [quotes_data] afterwards is [quotes_data] before followed by the new
    entries, [base_url] is the same, the clock was read once for each new
    entry, and a value that is returned is the whole of [quotes_data]. A
    second crawl on the same object so returns the entries of the first
    one again, before its own. *)
Theorem crawl_appends_to_quotes_data (max_pages : Z) (st : state) :
  exists new : list quote,
    quotes_data (self (snd (scrape_all_pages E max_pages st)))
    = quotes_data (self st) ++ new
    /\ base_url (self (snd (scrape_all_pages E max_pages st)))
       = base_url (self st)
    /\ clock_reads (snd (scrape_all_pages E max_pages st))
       = (clock_reads st + length new)%nat
    /\ forall qs,
         fst (scrape_all_pages E max_pages st) = Return qs ->
         qs = quotes_data (self st) ++ new.
Proof.
  rewrite scrape_all_pages_cases.
  destruct (while_pages_keeps (Z.to_nat max_pages) max_pages
              (Some (base_url (self st) ++ py "/page/1/")) 0
              (add_events st [Print MsgStart; Print MsgRule]))
    as (new & added & Hself & _ & _ & Hclock & _).
  exists new.
  destruct (while_pages E (Z.to_nat max_pages) max_pages
              (Some (base_url (self st) ++ py "/page/1/")) 0
              (add_events st [Print MsgStart; Print MsgRule]))
    as [[[] | e |] st1];
    cbn [fst snd add_events self clock_reads] in *;
    rewrite Hself; cbn [quotes_data base_url];
    (split; [reflexivity |]); (split; [reflexivity |]);
    (split; [exact Hclock |]); intros qs [= <-]; reflexivity.
Qed.

(** X5: a crawl never touches the file system: no file and no directory
    is created or changed, however the crawl ends. *)
Theorem crawl_leaves_files_alone (max_pages : Z) (st : state) :
  files (snd (scrape_all_pages E max_pages st)) = files st
  /\ dirs (snd (scrape_all_pages E max_pages st)) = dirs st.
Proof.
  rewrite scrape_all_pages_cases.
  destruct (while_pages_keeps (Z.to_nat max_pages) max_pages
              (Some (base_url (self st) ++ py "/page/1/")) 0
              (add_events st [Print MsgStart; Print MsgRule]))
    as (new & added & _ & Hfiles & Hdirs & _).
  destruct (while_pages E (Z.to_nat max_pages) max_pages
              (Some (base_url (self st) ++ py "/page/1/")) 0
              (add_events st [Print MsgStart; Print MsgRule]))
    as [[[] | e |] st1];
    cbn [fst snd add_events files dirs] in *; split; assumption.
Qed.

(** X6: the requests and pauses of a crawl come in turn: the first thing
    is a request, every request has the timeout 10, a pause lasts one
    second and follows a request at once, and two requests are always
    separated by a pause. (A pause may come last.) *)
Theorem crawl_is_paced (max_pages : Z) (st : state) :
  exists added : list event,
    effects (trace (snd (scrape_all_pages E max_pages st)))
    = effects (trace st) ++ added
    /\ paced added.
Proof.
  rewrite scrape_all_pages_cases.
  destruct (while_pages_keeps (Z.to_nat max_pages) max_pages
              (Some (base_url (self st) ++ py "/page/1/")) 0
              (add_events st [Print MsgStart; Print MsgRule]))
    as (new & added & _ & _ & _ & _ & Heff & Hpaced).
  exists added. split; [| exact Hpaced].
  cbn [add_events trace] in Heff. rewrite effects_app in Heff.
  cbn [effects List.filter is_print negb] in Heff.
  rewrite app_nil_r in Heff.
  destruct (while_pages E (Z.to_nat max_pages) max_pages
              (Some (base_url (self st) ++ py "/page/1/")) 0
              (add_events st [Print MsgStart; Print MsgRule]))
    as [[[] | e |] st1];
    cbn [fst snd add_events trace] in *;
    rewrite ?effects_app; cbn [effects List.filter is_print negb];
    rewrite ?app_nil_r; exact Heff.
Qed.

(** X7: whatever the ceiling, a crawl makes at most [max_pages] requests
    (none for a ceiling below 1), however it ends. *)
Theorem crawl_respects_ceiling (max_pages : Z) (st : state) :
  (fetch_count (trace (snd (scrape_all_pages E max_pages st)))
   <= fetch_count (trace st) + Z.to_nat max_pages)%nat.
Proof.
  rewrite scrape_all_pages_cases.
  pose proof (proj1 (while_pages_fetch_bound E (Z.to_nat max_pages)
                       max_pages
                       (Some (base_url (self st) ++ py "/page/1/")) 0
                       (add_events st [Print MsgStart; Print MsgRule])))
    as Hbound.
  cbn [add_events trace] in Hbound.
  rewrite fetch_count_app in Hbound.
  cbn [fetch_count List.filter is_http_get length] in Hbound.
  rewrite Z.sub_0_r in Hbound.
  destruct (while_pages E (Z.to_nat max_pages) max_pages
              (Some (base_url (self st) ++ py "/page/1/")) 0
              (add_events st [Print MsgStart; Print MsgRule]))
    as [[[] | e |] st1];
    cbn [fst snd add_events trace] in *;
    rewrite ?fetch_count_app;
    cbn [fetch_count List.filter is_http_get length]; lia.
Qed.

(** X8: with a ceiling of 0 or less nothing is fetched: the crawl prints
    its four lines and returns the entries the object already holds. *)
Theorem crawl_with_no_page_allowed (max_pages : Z) (st : state) :
  max_pages <= 0 ->
  scrape_all_pages E max_pages st
  = (Return (quotes_data (self st)),
     add_events st
       [Print MsgStart; Print MsgRule; Print MsgRule;
        Print (MsgDone (len (quotes_data (self st))))]).
Proof.
  intros Hmax. rewrite scrape_all_pages_cases.
  rewrite (while_pages_ceiling E _ max_pages 0 _ _ Hmax).
  unfold add_events. cbn [self trace clock_reads files dirs].
  rewrite <- app_assoc. reflexivity.
Qed.

Lemma first_page_url_nonempty (base : str) : base ++ py "/page/1/" <> [].
Proof. destruct base; discriminate. Qed.

(** X9: when the first page comes back with a body and the resolver raises
    on it, the exception leaves [scrape_all_pages], after one request and
    with the entries of the page already added to [quotes_data]: they are
    held by the object, and nothing is returned. *)
Theorem resolver_error_escapes_crawl (max_pages : Z) (st : state)
    (status_code : Z) (body : str) (e : exn) :
  1 <= max_pages ->
  session_get E (fetch_count (trace st))
    (base_url (self st) ++ py "/page/1/") = Responded status_code body ->
  ~ (400 <= status_code < 600) ->
  body <> [] ->
  get_next_page_url E (self st) body = Raise e ->
  exists (qs : list quote) (st1 st2 st' : state),
    parse_quote_page E body st1 = (Return qs, st2)
    /\ clock_reads st1 = clock_reads st
    /\ scrape_all_pages E max_pages st = (Raise e, st')
    /\ quotes_data (self st') = quotes_data (self st) ++ qs
    /\ fetch_count (trace st') = S (fetch_count (trace st)).
Proof.
  intros Hmax Hget Hok Hbody Hraise.
  set (url := base_url (self st) ++ py "/page/1/") in *.
  set (st_a := add_events st [Print MsgStart; Print MsgRule]).
  set (st0 := add_events st_a [Print (MsgPage (0 + 1))]).
  set (st1 := add_events st0 [HttpGet url 10]).
  destruct (parse_quote_page_run E body st1) as (qs & msgs & Hparse & _).
  eexists qs, st1, _, _. split; [exact Hparse |].
  split; [reflexivity |].
  assert (Hloop :
    while_pages E (Z.to_nat max_pages) max_pages (Some url) 0 st_a
    = (Raise e,
       {| self := {| base_url := base_url (self st);
                     quotes_data := quotes_data (self st) ++ qs |};
          trace := trace st1 ++ map Print msgs
                   ++ [Print (MsgCollected (len qs))];
          clock_reads := (clock_reads st + length qs)%nat;
          files := files st; dirs := dirs st |})).
  { destruct (Z.to_nat max_pages) as [|fuel] eqn:Hfuel; [lia |].
    cbn [while_pages].
    assert (Hcond : truthy_opt (Some url) && (0 <? max_pages) = true).
    { simpl. rewrite (truthy_nonempty url (first_page_url_nonempty _)).
      apply Z.ltb_lt. lia. }
    rewrite Hcond. unfold bind at 1. unfold print at 1, emit at 1.
    fold st0. unfold bind at 1. cbn [the_str].
    rewrite get_page_content_run.
    replace (fetch_count (trace st0)) with (fetch_count (trace st)).
    2:{ unfold st0, st_a. cbn [add_events trace].
        rewrite !fetch_count_app.
        cbn [fetch_count List.filter is_http_get length]. lia. }
    rewrite Hget.
    assert (Herr : (400 <=? status_code) && (status_code <? 600) = false).
    { apply andb_false_iff.
      destruct (Z.leb_spec 400 status_code); [right | left; reflexivity].
      apply Z.ltb_ge. lia. }
    rewrite Herr. fold st1.
    cbn [truthy_opt negb]. rewrite (truthy_nonempty body Hbody).
    cbn [negb the_str]. unfold bind at 1. rewrite Hparse.
    unfold bind at 1, extend_quotes_data at 1.
    unfold bind at 1, print at 1, emit at 1.
    unfold bind at 1, get_next_page_url_ at 1.
    cbn [self add_events].
    rewrite (get_next_page_url_base E _ (self st) body) by reflexivity.
    rewrite Hraise. unfold st1, st0, st_a, add_events.
    cbn [self trace clock_reads files dirs].
    rewrite <- !app_assoc. reflexivity. }
  rewrite scrape_all_pages_cases. fold url. fold st_a. rewrite Hloop.
  split; [reflexivity |]. split; [reflexivity |].
  cbn [trace]. unfold st1, st0, st_a. cbn [add_events trace].
  rewrite !fetch_count_app, fetch_count_prints.
  cbn [fetch_count List.filter is_http_get length]. lia.
Qed.

End DriverDetails.

(** With a ceiling of 0 the small site is not asked at all. *)
Lemma crawl_with_no_page_allowed_witness :
  fst (scrape_all_pages demo_env 0 (start_state (py "http://q")))
  = Return [].
Proof.
  rewrite (crawl_with_no_page_allowed demo_env 0
             (start_state (py "http://q"))); [reflexivity | lia].
Defined.

(** The site whose next marker has an anchor without [href]: the crawl
    raises [KeyError] and the object holds the entry of the page. *)
Lemma resolver_error_escapes_crawl_witness :
  exists (q : quote) (st' : state),
    scrape_all_pages no_href_env 5 (start_state (py "http://h"))
    = (Raise (KeyError (py "href")), st')
    /\ length (quotes_data (self st')) = 1%nat.
Proof.
  destruct (resolver_error_escapes_crawl no_href_env 5
              (start_state (py "http://h")) 200 (py "NO-HREF")
              (KeyError (py "href")))
    as (qs & st1 & st2 & st' & Hparse & _ & Hrun & Hdata & _).
  - lia.
  - reflexivity.
  - lia.
  - discriminate.
  - reflexivity.
  - destruct (parse_quote_page_run no_href_env (py "NO-HREF") st1)
      as (qs0 & msgs & Hrun0 & Hall).
    rewrite Hrun0 in Hparse. injection Hparse as <- _.
    apply Forall2_length in Hall.
    destruct qs0 as [|q [|q2 rest]]; try discriminate Hall.
    exists q, st'. split; [exact Hrun |].
    rewrite Hdata. reflexivity.
Defined.

(** ** More on the Dataset Writer *)

Section WriterDetails.

Variable E : environment.

(** [save_to_csv] by cases. *)
Lemma save_to_csv_cases (filename : str) (st : state) :
  save_to_csv E filename st
  = let filepath := os_path_join (py "dados") filename in
    let made (tr : list event) (fs : gmap (list N) (list (list (list N)))) :=
      {| self := self st; trace := trace st ++ tr;
         clock_reads := clock_reads st; files := fs;
         dirs := {[py "dados"]} ∪ dirs st |} in
    let all_rows := fieldnames :: map row_of (quotes_data (self st)) in
    match quotes_data (self st) with
    | [] => (Return None, made [Print MsgNoData] (files st))
    | _ :: _ =>
        match open_w E filepath with
        | IoOk =>
            (Return (Some filepath),
             made [Print (MsgSaved filepath)]
               (<[filepath := all_rows]> (files st)))
        | OpenError =>
            (Return None, made [Print (MsgSaveError IOError)] (files st))
        | WriteError n =>
            (Return None,
             made [Print (MsgSaveError IOError)]
               (<[filepath := firstn n all_rows]> (files st)))
        end
    end.
Proof.
  unfold save_to_csv.
  unfold bind at 1, os_makedirs at 1. unfold bind at 1, get_self at 1.
  cbn [self].
  destruct (quotes_data (self st)) as [|q qs] eqn:Hq.
  - reflexivity.
  - unfold try_except. unfold bind at 1, write_csv at 1.
    cbn [self trace clock_reads files dirs].
    destruct (open_w E (os_path_join (py "dados") filename));
      unfold bind, print, emit, ret, add_events;
      cbn [self trace clock_reads files dirs is_IOError];
      rewrite ?app_nil_r; try reflexivity.
Qed.




End WriterDetails.



(** ** [get_statistics] *)

Lemma str_eqb_eq (a b : str) : str_eqb a b = true <-> a = b.
Proof.
  unfold str_eqb. split; intros H.
  - apply bool_decide_eq_true in H. exact H.
  - apply bool_decide_eq_true. exact H.
Qed.

Lemma str_eqb_neq (a b : str) : str_eqb a b = false <-> a <> b.
Proof.
  unfold str_eqb. split; intros H.
  - apply bool_decide_eq_false in H. exact H.
  - apply bool_decide_eq_false. exact H.
Qed.

Lemma count_in_count_author (a b : str) (l : list (str * Z)) :
  count_in b (count_author a l)
  = if str_eqb a b then count_in b l + 1 else count_in b l.
Proof.
  induction l as [|[c n] l IH]; simpl.
  - destruct (str_eqb a b); reflexivity.
  - destruct (str_eqb c a) eqn:Hca; simpl.
    + apply str_eqb_eq in Hca. subst c.
      destruct (str_eqb a b); reflexivity.
    + destruct (str_eqb c b) eqn:Hcb.
      * apply str_eqb_eq in Hcb. subst c. apply str_eqb_neq in Hca.
        rewrite (proj2 (str_eqb_neq a b)) by congruence. reflexivity.
      * exact IH.
Qed.

Lemma keys_count_author_old (a : str) (l : list (str * Z)) :
  In a (map fst l) -> map fst (count_author a l) = map fst l.
Proof.
  induction l as [|[c n] l IH]; simpl; [tauto |].
  intros Hin. destruct (str_eqb c a) eqn:Hca; simpl; [reflexivity |].
  apply str_eqb_neq in Hca. destruct Hin as [-> | Hin]; [congruence |].
  rewrite (IH Hin). reflexivity.
Qed.

Lemma keys_count_author_new (a : str) (l : list (str * Z)) :
  ~ In a (map fst l) -> map fst (count_author a l) = map fst l ++ [a].
Proof.
  induction l as [|[c n] l IH]; simpl; [reflexivity |].
  intros Hin. destruct (str_eqb c a) eqn:Hca; simpl.
  - apply str_eqb_eq in Hca. tauto.
  - rewrite IH by tauto. reflexivity.
Qed.

Lemma in_keys_dec (a : str) (l : list (str * Z)) :
  In a (map fst l) \/ ~ In a (map fst l).
Proof.
  destruct (decide (a ∈ map fst l)) as [H | H].
  - left. apply list_elem_of_In. exact H.
  - right. intros H'. apply H. apply list_elem_of_In. exact H'.
Qed.

Lemma count_authors_snoc (qs : list quote) (q : quote) :
  count_authors (qs ++ [q]) = count_author (autor q) (count_authors qs).
Proof. unfold count_authors. rewrite fold_left_app. reflexivity. Qed.

Lemma citations_of_snoc (a : str) (qs : list quote) (q : quote) :
  citations_of a (qs ++ [q])
  = citations_of a qs + (if str_eqb (autor q) a then 1 else 0).
Proof.
  unfold citations_of, len. rewrite List.filter_app, length_app. simpl.
  destruct (str_eqb (autor q) a); simpl; lia.
Qed.

(** The dictionary holds, for each author, the number of their quotes. *)
Lemma count_in_count_authors (a : str) (qs : list quote) :
  count_in a (count_authors qs) = citations_of a qs.
Proof.
  induction qs as [|q qs IH] using rev_ind; [reflexivity |].
  rewrite count_authors_snoc, count_in_count_author, citations_of_snoc, IH.
  destruct (str_eqb (autor q) a); lia.
Qed.

(** Its keys are the authors, each once, in the order of their first
    quote. *)
Lemma keys_count_authors_in (a : str) (qs : list quote) :
  In a (map fst (count_authors qs)) <-> In a (map autor qs).
Proof.
  induction qs as [|q qs IH] using rev_ind; [reflexivity |].
  rewrite count_authors_snoc, map_app, in_app_iff. simpl.
  destruct (in_keys_dec (autor q) (count_authors qs)) as [Hin | Hin].
  - rewrite (keys_count_author_old _ _ Hin), IH. split; [tauto |].
    intros [H | [<- | []]]; [exact H |]. apply IH. exact Hin.
  - rewrite (keys_count_author_new _ _ Hin), in_app_iff, IH. simpl. tauto.
Qed.

Lemma keys_count_authors_nodup (qs : list quote) :
  NoDup (map fst (count_authors qs)).
Proof.
  induction qs as [|q qs IH] using rev_ind; [constructor |].
  rewrite count_authors_snoc.
  destruct (in_keys_dec (autor q) (count_authors qs)) as [Hin | Hin].
  - rewrite (keys_count_author_old _ _ Hin). exact IH.
  - rewrite (keys_count_author_new _ _ Hin).
    apply NoDup_app. split; [exact IH |]. split.
    + intros x Hx Hx'. apply list_elem_of_In in Hx, Hx'.
      destruct Hx' as [<- | []]. tauto.
    + apply NoDup_singleton.
Qed.

Lemma keys_count_authors_length (qs : list quote) :
  (length (count_authors qs) <= length qs)%nat.
Proof.
  induction qs as [|q qs IH] using rev_ind; [simpl; lia |].
  rewrite count_authors_snoc, length_app. simpl.
  rewrite <- (length_map fst (count_author _ _)).
  destruct (in_keys_dec (autor q) (count_authors qs)) as [Hin | Hin].
  - rewrite (keys_count_author_old _ _ Hin), length_map. lia.
  - rewrite (keys_count_author_new _ _ Hin), length_app, length_map.
    simpl. lia.
Qed.

Lemma count_in_item (a : str) (n : Z) (l : list (str * Z)) :
  NoDup (map fst l) -> In (a, n) l -> count_in a l = n.
Proof.
  induction l as [|[c m] l IH]; simpl; [tauto |].
  intros Hnd Hin. apply NoDup_cons in Hnd. destruct Hnd as [Hc Hnd].
  destruct Hin as [[= -> ->] | Hin].
  - rewrite (proj2 (str_eqb_eq a a) eq_refl). reflexivity.
  - destruct (str_eqb c a) eqn:Hca; [| exact (IH Hnd Hin)].
    apply str_eqb_eq in Hca. subst c. exfalso. apply Hc.
    apply list_elem_of_In. apply (in_map fst) in Hin. exact Hin.
Qed.

(** [max] picks the first item that no item exceeds. *)
Lemma max_from_split (items : list (str * Z)) :
  forall best : str * Z,
  exists l1 l2,
    best :: items = l1 ++ max_from best items :: l2
    /\ List.Forall (fun x => snd x < snd (max_from best items)) l1
    /\ List.Forall (fun x => snd x <= snd (max_from best items)) l2.
Proof.
  induction items as [|x rest IH]; intros best.
  - exists [], []. simpl. repeat split; constructor.
  - simpl. destruct (Z.ltb_spec (snd best) (snd x)) as [Hlt | Hge].
    + destruct (IH x) as (l1 & l2 & Heq & H1 & H2).
      exists (best :: l1), l2. split; [simpl; rewrite Heq; reflexivity |].
      split; [| exact H2]. constructor; [| exact H1].
      destruct l1 as [|y l1]; simpl in Heq.
      * injection Heq as Hx _. rewrite <- Hx. exact Hlt.
      * injection Heq as Hx _. subst y.
        apply List.Forall_inv in H1. cbv beta in H1. lia.
    + destruct (IH best) as (l1 & l2 & Heq & H1 & H2).
      destruct l1 as [|y l1]; simpl in Heq.
      * injection Heq as Hb Hrest.
        exists [], (x :: l2). split; [simpl; congruence |].
        split; [constructor |]. constructor; [| exact H2].
        rewrite <- Hb. exact Hge.
      * injection Heq as Hb Hrest. subst y.
        exists (best :: x :: l1), l2.
        split; [simpl; congruence |]. split; [| exact H2].
        pose proof (List.Forall_inv H1) as Hbest. cbv beta in Hbest.
        constructor; [exact Hbest |].
        constructor; [lia | exact (List.Forall_inv_tail H1)].
Qed.

Lemma first_item_of_key (a : str) (l : list (str * Z)) :
  In a (map fst l) -> In (a, count_in a l) l.
Proof.
  induction l as [|[c n] l IH]; simpl; [tauto |].
  intros Hin. destruct (str_eqb c a) eqn:Hca.
  - apply str_eqb_eq in Hca. subst c. left. reflexivity.
  - apply str_eqb_neq in Hca. destruct Hin as [-> | Hin]; [congruence |].
    right. exact (IH Hin).
Qed.

Lemma citations_of_nonneg (a : str) (qs : list quote) :
  0 <= citations_of a qs.
Proof. unfold citations_of, len. lia. Qed.

Lemma citations_of_absent (a : str) (qs : list quote) :
  ~ In a (map autor qs) -> citations_of a qs = 0.
Proof.
  intros Hnot. unfold citations_of.
  induction qs as [|q qs IH]; simpl; [reflexivity |].
  simpl in Hnot.
  rewrite (proj2 (str_eqb_neq (autor q) a)) by tauto.
  apply IH. tauto.
Qed.

(** In the keys of the dictionary, an author who comes before another has
    a quote before every quote of the other. *)
Lemma keys_follow_first_quotes (qs : list quote) :
  forall (k1 k2 : list str) (a b : str),
    map fst (count_authors qs) = k1 ++ a :: k2 ->
    In b k2 ->
    exists l1 l2, map autor qs = l1 ++ a :: l2 /\ ~ In b l1.
Proof.
  induction qs as [|q qs IH] using rev_ind; intros k1 k2 a b Hkeys Hb.
  - destruct k1; discriminate Hkeys.
  - rewrite count_authors_snoc in Hkeys. rewrite map_app. simpl.
    destruct (in_keys_dec (autor q) (count_authors qs)) as [Hin | Hin].
    + rewrite (keys_count_author_old _ _ Hin) in Hkeys.
      destruct (IH k1 k2 a b Hkeys Hb) as (l1 & l2 & Heq & Hnot).
      exists l1, (l2 ++ [autor q]). rewrite Heq, <- app_assoc.
      split; [reflexivity | exact Hnot].
    + rewrite (keys_count_author_new _ _ Hin) in Hkeys.
      destruct (exists_last (l := k2)) as (k2' & x & ->).
      { intros ->. destruct Hb. }
      rewrite app_comm_cons, app_assoc in Hkeys.
      apply app_inj_tail in Hkeys. destruct Hkeys as [Hkeys Hx].
      apply in_app_iff in Hb. destruct Hb as [Hb | [<- | []]].
      * destruct (IH k1 k2' a b Hkeys Hb) as (l1 & l2 & Heq & Hnot).
        exists l1, (l2 ++ [autor q]). rewrite Heq, <- app_assoc.
        split; [reflexivity | exact Hnot].
      * assert (Ha : In a (map autor qs)).
        { apply keys_count_authors_in. rewrite Hkeys.
          apply in_app_iff. right. left. reflexivity. }
        destruct (in_split _ _ Ha) as (l1 & l2 & Heq).
        exists l1, (l2 ++ [autor q]). rewrite Heq, <- app_assoc.
        split; [reflexivity |].
        intros Hl1. apply Hin. apply keys_count_authors_in.
        rewrite Heq, Hx. apply in_app_iff. left. exact Hl1.
Qed.

Section StatisticsFacts.

Variable float : Type.
Variable true_div : Z -> Z -> float.
Variable round_ : float -> Z -> float.

(** X13: [get_statistics] gives [None] exactly when the object holds no
    entry, and the [max] over the authors never meets an empty sequence:
    with at least one entry the dictionary comes back. *)
Theorem statistics_exactly_with_data (this : CitationScraper) :
  (get_statistics float true_div round_ this = NoStatistics
   <-> quotes_data this = [])
  /\ get_statistics float true_div round_ this <> MaxValueError
  /\ (quotes_data this <> [] ->
      exists s, get_statistics float true_div round_ this = Statistics s).
Proof.
  unfold get_statistics.
  destruct (quotes_data this) as [|q qs] eqn:Hq.
  - split; [tauto |]. split; [discriminate | congruence].
  - assert (Hkey : In (autor q) (map fst (count_authors (q :: qs)))).
    { apply keys_count_authors_in. left. reflexivity. }
    destruct (count_authors (q :: qs)) as [|x rest]; [destruct Hkey |].
    cbn [max_by_count].
    split; [split; discriminate |]. split; [discriminate |].
    intros _. eexists. reflexivity.
Qed.

(** X14: in the statistics, [total_citacoes] is the number of entries and
    [autores_unicos], counted through a set, is also the number of keys of
    the dictionary of authors; it is at least 1 and at most the number of
    entries. *)
Theorem statistics_count_authors (this : CitationScraper)
    (s : statistics float) :
  get_statistics float true_div round_ this = Statistics s ->
  total_citacoes s = len (quotes_data this)
  /\ autores_unicos s = len (count_authors (quotes_data this))
  /\ 1 <= autores_unicos s <= total_citacoes s.
Proof.
  unfold get_statistics.
  destruct (quotes_data this) as [|q qs] eqn:Hq; [discriminate |].
  destruct (max_by_count (count_authors (q :: qs))) as [best|] eqn:Hmax;
    [| discriminate].
  intros [= <-]. cbn [total_citacoes autores_unicos].
  assert (Huniq : unique_count (q :: qs) = len (count_authors (q :: qs))).
  { unfold unique_count, len. f_equal.
    rewrite <- (length_map fst (count_authors (q :: qs))).
    rewrite <- (size_list_to_set (C := gset (list N))
                  (map fst (count_authors (q :: qs))))
      by apply keys_count_authors_nodup.
    f_equal. apply set_eq. intros x.
    rewrite !elem_of_list_to_set, !list_elem_of_In.
    symmetry. apply keys_count_authors_in. }
  split; [reflexivity |]. split; [exact Huniq |].
  rewrite Huniq. unfold len.
  pose proof (keys_count_authors_length (q :: qs)) as Hle.
  destruct (count_authors (q :: qs)); [discriminate Hmax |].
  simpl length in *. lia.
Qed.

(** X15: the author named in the statistics has a quote among the
    entries, [num_citacoes_autor] is the number of that author's quotes,
    and no author has more. *)
Theorem statistics_most_quoted (this : CitationScraper)
    (s : statistics float) :
  get_statistics float true_div round_ this = Statistics s ->
  In (autor_mais_citado s) (map autor (quotes_data this))
  /\ num_citacoes_autor s
     = citations_of (autor_mais_citado s) (quotes_data this)
  /\ forall author,
       citations_of author (quotes_data this) <= num_citacoes_autor s.
Proof.
  unfold get_statistics.
  destruct (quotes_data this) as [|q qs] eqn:Hq; [discriminate |].
  destruct (count_authors (q :: qs)) as [|x rest] eqn:Hitems;
    [discriminate |].
  cbn [max_by_count]. intros [= <-].
  cbn [autor_mais_citado num_citacoes_autor].
  destruct (max_from_split rest x) as (l1 & l2 & Heq & H1 & H2).
  set (r := max_from x rest) in *.
  assert (Hr : In r (count_authors (q :: qs))).
  { rewrite Hitems, Heq. apply in_app_iff. right. left. reflexivity. }
  assert (Hnum : snd r = citations_of (fst r) (q :: qs)).
  { rewrite <- count_in_count_authors. symmetry.
    apply count_in_item; [apply keys_count_authors_nodup |].
    destruct r. exact Hr. }
  split; [| split].
  - apply keys_count_authors_in. apply (in_map fst) in Hr. exact Hr.
  - exact Hnum.
  - intros author.
    destruct (in_keys_dec author (count_authors (q :: qs))) as [Hin | Hin].
    + apply first_item_of_key in Hin.
      rewrite count_in_count_authors, Hitems, Heq in Hin.
      apply in_app_iff in Hin. destruct Hin as [Hin | [Hin | Hin]].
      * rewrite List.Forall_forall in H1. apply H1 in Hin.
        simpl in Hin. lia.
      * rewrite Hin. simpl. lia.
      * rewrite List.Forall_forall in H2. apply H2 in Hin. exact Hin.
    + rewrite citations_of_absent.
      * rewrite Hnum. apply citations_of_nonneg.
      * intros H. apply Hin. apply keys_count_authors_in. exact H.
Qed.

(** X16: when several authors have the largest number of quotes, the one
    named is the one whose first quote comes first: before every quote of
    another author with as many quotes there is a quote of the author
    named. *)
Theorem statistics_tie_goes_to_first_seen (this : CitationScraper)
    (s : statistics float) (other : str) :
  get_statistics float true_div round_ this = Statistics s ->
  other <> autor_mais_citado s ->
  citations_of other (quotes_data this) = num_citacoes_autor s ->
  exists l1 l2,
    map autor (quotes_data this) = l1 ++ autor_mais_citado s :: l2
    /\ ~ In other l1.
Proof.
  unfold get_statistics.
  destruct (quotes_data this) as [|q qs] eqn:Hq; [discriminate |].
  destruct (count_authors (q :: qs)) as [|x rest] eqn:Hitems;
    [discriminate |].
  cbn [max_by_count]. intros [= <-].
  cbn [autor_mais_citado num_citacoes_autor]. intros Hother Htie.
  destruct (max_from_split rest x) as (l1 & l2 & Heq & H1 & H2).
  set (r := max_from x rest) in *.
  assert (Hr : In r (count_authors (q :: qs))).
  { rewrite Hitems, Heq. apply in_app_iff. right. left. reflexivity. }
  assert (Hpos : 0 < snd r).
  { assert (Hk : In (fst r) (map autor (q :: qs))).
    { apply keys_count_authors_in. apply (in_map fst) in Hr. exact Hr. }
    assert (Hnum : snd r = citations_of (fst r) (q :: qs)).
    { rewrite <- count_in_count_authors. symmetry.
      apply count_in_item; [apply keys_count_authors_nodup |].
      destruct r. exact Hr. }
    rewrite Hnum.
    destruct (Z.eq_dec (citations_of (fst r) (q :: qs)) 0) as [H0 | H0].
    - exfalso. unfold citations_of, len in H0.
      apply in_map_iff in Hk. destruct Hk as (q' & Hq' & Hin').
      assert (Hf : In q' (List.filter
                            (fun q0 => str_eqb (autor q0) (fst r))
                            (q :: qs))).
      { apply List.filter_In. split; [exact Hin' |].
        apply str_eqb_eq. exact Hq'. }
      destruct (List.filter _ (q :: qs)); [destruct Hf | simpl in H0; lia].
    - pose proof (citations_of_nonneg (fst r) (q :: qs)). lia. }
  assert (Hin : In other (map fst (count_authors (q :: qs)))).
  { destruct (in_keys_dec other (count_authors (q :: qs))) as [H | H];
      [exact H |].
    exfalso. rewrite citations_of_absent in Htie; [lia |].
    intros H'. apply H. apply keys_count_authors_in. exact H'. }
  apply first_item_of_key in Hin.
  rewrite count_in_count_authors, Htie, Hitems, Heq in Hin.
  apply in_app_iff in Hin. destruct Hin as [Hin | [Hin | Hin]].
  - rewrite List.Forall_forall in H1. apply H1 in Hin. simpl in Hin. lia.
  - exfalso. apply Hother. rewrite Hin. reflexivity.
  - apply (keys_follow_first_quotes (q :: qs) (map fst l1) (map fst l2)).
    + rewrite Hitems, Heq, map_app. reflexivity.
    + apply (in_map fst) in Hin. exact Hin.
Qed.

End StatisticsFacts.

(** The crawled small site has two authors with one quote each: the
    statistics count two authors. *)
Lemma statistics_count_authors_witness :
  autores_unicos
    {| total_citacoes := 2; autores_unicos := 2; media_palavras := tt;
       autor_mais_citado := py "X"; num_citacoes_autor := 1 |}
  = len (count_authors (quotes_data (self crawled_state))).
Proof.
  destruct (statistics_count_authors unit (fun _ _ => tt) (fun _ _ => tt)
              (self crawled_state)
              {| total_citacoes := 2; autores_unicos := 2;
                 media_palavras := tt; autor_mais_citado := py "X";
                 num_citacoes_autor := 1 |})
    as (_ & Hauthors & _).
  - vm_compute. reflexivity.
  - exact Hauthors.
Defined.

(** And no author has more than the one quote of the author named. *)
Lemma statistics_most_quoted_witness :
  citations_of (py "Y") (quotes_data (self crawled_state)) <= 1.
Proof.
  destruct (statistics_most_quoted unit (fun _ _ => tt) (fun _ _ => tt)
              (self crawled_state)
              {| total_citacoes := 2; autores_unicos := 2;
                 media_palavras := tt; autor_mais_citado := py "X";
                 num_citacoes_autor := 1 |})
    as (_ & _ & Hmost).
  - vm_compute. reflexivity.
  - exact (Hmost (py "Y")).
Defined.

Lemma statistics_tie_goes_to_first_seen_witness :
  exists l1 l2,
    map autor (quotes_data (self crawled_state)) = l1 ++ py "X" :: l2
    /\ ~ In (py "Y") l1.
Proof.
  apply (statistics_tie_goes_to_first_seen unit (fun _ _ => tt)
           (fun _ _ => tt) (self crawled_state)
           {| total_citacoes := 2; autores_unicos := 2;
              media_palavras := tt; autor_mais_citado := py "X";
              num_citacoes_autor := 1 |} (py "Y")).
  - vm_compute. reflexivity.
  - discriminate.
  - vm_compute. reflexivity.
Defined.

(** ** The tags column *)

Lemma split_on_comma_run (t : str) :
  forall cur rest : str,
    ~ In 44%N t ->
    split_on_from [44%N] 0 cur (t ++ rest)
    = split_on_from [44%N] 0 (rev t ++ cur) rest.
Proof.
  induction t as [|c t IH]; intros cur rest Hno; [reflexivity |].
  simpl in Hno.
  assert (Hc : N.eqb 44 c = false).
  { apply N.eqb_neq. intros H. apply Hno. left. symmetry. exact H. }
  change ((c :: t) ++ rest) with (c :: (t ++ rest)).
  cbn [split_on_from starts_with]. rewrite Hc. cbn [andb].
  rewrite (IH (c :: cur) rest) by tauto.
  simpl. rewrite <- app_assoc. reflexivity.
Qed.

Lemma split_on_comma_hit (cur rest : str) :
  split_on_from [44%N] 0 cur (44%N :: rest)
  = rev cur :: split_on_from [44%N] 0 [] rest.
Proof. reflexivity. Qed.

Lemma split_on_comma_join (rest : list str) :
  forall (t cur : str),
    List.Forall (fun t : list N => ~ In 44%N t) (t :: rest) ->
    split_on_from [44%N] 0 cur (join [44%N; 32%N] (t :: rest))
    = (rev cur ++ t) :: map (cons 32%N) rest.
Proof.
  induction rest as [|t2 rest IH]; intros t cur Hall.
  - cbn [join map]. rewrite <- (app_nil_r t) at 1.
    rewrite split_on_comma_run by exact (List.Forall_inv Hall).
    simpl. rewrite rev_app_distr, rev_involutive. reflexivity.
  - change (join [44%N; 32%N] (t :: t2 :: rest))
      with (t ++ 44%N :: 32%N :: join [44%N; 32%N] (t2 :: rest)).
    rewrite split_on_comma_run by exact (List.Forall_inv Hall).
    rewrite split_on_comma_hit.
    rewrite rev_app_distr, rev_involutive. f_equal.
    change (32%N :: join [44%N; 32%N] (t2 :: rest))
      with ([32%N] ++ join [44%N; 32%N] (t2 :: rest)).
    rewrite split_on_comma_run by (intros [H | []]; discriminate H).
    rewrite (IH t2 _ (List.Forall_inv_tail Hall)). reflexivity.
Qed.

Lemma strip_ws_after_space (t : str) : strip_ws (32%N :: t) = strip_ws t.
Proof. reflexivity. Qed.

(** X17: what the scraper joins the analyzer splits again: when an entry
    has at least one tag and no tag holds a comma or begins or ends with
    whitespace, splitting its [tags] field at the commas and stripping the
    pieces gives back the tags, in order. *)
Theorem tags_survive_join_and_split (tag_texts : list str) :
  tag_texts <> [] ->
  List.Forall (fun t : list N => ~ In 44%N t /\ strip_ws t = t) tag_texts ->
  tags_list (join (py ", ") tag_texts) = tag_texts.
Proof.
  intros Hne Hall. destruct tag_texts as [|t rest]; [congruence |].
  unfold tags_list, split_on.
  change (py ",") with [44%N]. change (py ", ") with [44%N; 32%N].
  rewrite split_on_comma_join.
  - apply List.Forall_cons_iff in Hall. destruct Hall as [[_ Ht] Hrest].
    cbn [map rev app]. rewrite Ht. f_equal.
    rewrite map_map. clear Hne Ht.
    induction rest as [|t2 rest IH]; [reflexivity |].
    apply List.Forall_cons_iff in Hrest. destruct Hrest as [[_ Ht2] Hrest].
    cbn [map]. rewrite strip_ws_after_space, Ht2, (IH Hrest).
    reflexivity.
  - revert Hall. apply List.Forall_impl. intros a [Ha _]. exact Ha.
Qed.

(** Three tags of the kind the site has. *)
Lemma tags_survive_join_and_split_witness :
  tags_list (join (py ", ") [py "love"; py "life"; py "change"])
  = [py "love"; py "life"; py "change"].
Proof.
  apply tags_survive_join_and_split.
  - discriminate.
  - repeat constructor; try reflexivity;
      intros H; repeat (destruct H as [H | H]; [discriminate H |]);
      destruct H.
Defined.

Lemma split_on_comma_length (s : str) :
  forall cur : str,
    length (split_on_from [44%N] 0 cur s)
    = S (length (List.filter (N.eqb 44) s)).
Proof.
  induction s as [|c s IH]; intros cur; [reflexivity |].
  cbn [split_on_from starts_with List.filter].
  destruct (N.eqb 44 c); cbn [andb length Nat.sub]; rewrite IH;
    reflexivity.
Qed.

(** X18: every cell of the tags column that is a string gives one tag
    more than it has commas, an empty cell so giving one tag, the empty
    one; a NaN cell gives none. The number of tags counted is the sum over
    the cells. *)
Theorem all_tags_counts_commas (column : list (option str)) :
  length (all_tags column)
  = list_sum
      (map (fun cell : option (list N) =>
              match cell with
              | Some tags_str => S (length (List.filter (N.eqb 44) tags_str))
              | None => 0%nat
              end) column).
Proof.
  induction column as [|[tags_str|] column IH]; cbn [all_tags map list_sum].
  - reflexivity.
  - rewrite length_app, IH.
    unfold tags_list, split_on. rewrite length_map.
    change (py ",") with [44%N]. rewrite split_on_comma_length.
    reflexivity.
  - exact IH.
Qed.

Lemma lstrip_ws_suffix (s : str) : exists p, s = p ++ lstrip_ws s.
Proof.
  induction s as [|c s IH]; simpl.
  - exists []. reflexivity.
  - destruct (isspace c).
    + destruct IH as (p & Hp). exists (c :: p). simpl. congruence.
    + exists []. reflexivity.
Qed.

Lemma lstrip_ws_head (s : str) (c : N) :
  head (lstrip_ws s) = Some c -> isspace c = false.
Proof.
  induction s as [|d s IH]; simpl; [discriminate |].
  destruct (isspace d) eqn:Hd; [exact IH |].
  simpl. intros [= <-]. exact Hd.
Qed.

Lemma lstrip_ws_fixed (s : str) :
  (forall c, head s = Some c -> isspace c = false) -> lstrip_ws s = s.
Proof.
  destruct s as [|c s]; simpl; [reflexivity |].
  intros H. rewrite (H c eq_refl). reflexivity.
Qed.

Lemma strip_ws_head (s : str) (c : N) :
  head (strip_ws s) = Some c -> isspace c = false.
Proof.
  unfold strip_ws.
  destruct (lstrip_ws_suffix (rev (lstrip_ws s))) as (p & Hp).
  intros Hhead. apply (lstrip_ws_head s).
  apply (f_equal (@rev N)) in Hp.
  rewrite rev_involutive, rev_app_distr in Hp. rewrite Hp.
  destruct (rev (lstrip_ws (rev (lstrip_ws s)))); [discriminate |].
  exact Hhead.
Qed.

Lemma strip_ws_in (s : str) (c : N) : In c (strip_ws s) -> In c s.
Proof.
  unfold strip_ws. intros H. apply in_rev in H.
  destruct (lstrip_ws_suffix (rev (lstrip_ws s))) as (p & Hp).
  assert (H1 : In c (rev (lstrip_ws s))).
  { rewrite Hp. apply in_app_iff. right. exact H. }
  apply in_rev in H1.
  destruct (lstrip_ws_suffix s) as (p' & Hp').
  rewrite Hp'. apply in_app_iff. right. exact H1.
Qed.

Lemma strip_ws_idempotent (s : str) : strip_ws (strip_ws s) = strip_ws s.
Proof.
  unfold strip_ws at 1.
  rewrite (lstrip_ws_fixed (strip_ws s)) by apply strip_ws_head.
  unfold strip_ws. rewrite rev_involutive.
  rewrite (lstrip_ws_fixed (lstrip_ws (rev (lstrip_ws s))))
    by apply lstrip_ws_head.
  reflexivity.
Qed.

Lemma split_on_comma_pieces (s : str) :
  forall cur : str,
    ~ In 44%N cur ->
    List.Forall (fun t : list N => ~ In 44%N t)
      (split_on_from [44%N] 0 cur s).
Proof.
  induction s as [|c s IH]; intros cur Hcur.
  - constructor; [| constructor]. intros H. apply in_rev in H. tauto.
  - cbn [split_on_from starts_with].
    destruct (N.eqb 44 c) eqn:Hc; cbn [andb length Nat.sub].
    + constructor; [intros H; apply in_rev in H; tauto |].
      apply IH. intros [].
    + apply IH. apply N.eqb_neq in Hc.
      intros [H | H]; [congruence | tauto].
Qed.

(** X20: every tag the analyzer takes from a cell is free of commas and
    of whitespace at its ends, whatever the cell holds; stripping it once
    more changes nothing. With X17 these are exactly the tags that pass
    through the file unchanged. *)
Theorem tags_list_gives_clean_tags (tags_str : str) :
  List.Forall (fun t : list N => ~ In 44%N t /\ strip_ws t = t)
    (tags_list tags_str).
Proof.
  unfold tags_list, split_on. change (py ",") with [44%N].
  pose proof (split_on_comma_pieces tags_str [] (fun H => H)) as Hpieces.
  induction Hpieces as [|t l Ht _ IH]; cbn [map]; constructor.
  - split; [| apply strip_ws_idempotent].
    intros H. apply Ht. apply strip_ws_in. exact H.
  - exact IH.
Qed.

(** * The methods on a host whose library calls can fail *)

Lemma bind_ext {A B} (m1 m2 : M A) (k1 k2 : A -> M B) (st : state) :
  (forall s, m1 s = m2 s) ->
  (forall a s, k1 a s = k2 a s) ->
  bind m1 k1 st = bind m2 k2 st.
Proof.
  intros Hm Hk. unfold bind. rewrite Hm.
  destruct (m2 st) as [[a | e |] s]; [apply Hk | reflexivity | reflexivity].
Qed.

Section HostFacts.

Variable H : Host.host.

(** On markup the parser takes, the methods are those of the
    environment. *)
Lemma host_parse_accepted (html : str) (st : state) :
  Host.parser_rejects H html = false ->
  Host.parse_quote_page H html st = parse_quote_page (Host.env H) html st.
Proof.
  intros Hacc. unfold Host.parse_quote_page, Host.BeautifulSoup_, bind.
  rewrite Hacc. reflexivity.
Qed.

Lemma host_parse_rejected (html : str) (st : state) :
  Host.parser_rejects H html = true ->
  Host.parse_quote_page H html st = (Raise ParserRejectedMarkup, st).
Proof.
  intros Hrej. unfold Host.parse_quote_page, Host.BeautifulSoup_, bind.
  rewrite Hrej. reflexivity.
Qed.

Lemma host_resolver_accepted (this : CitationScraper) (html : str) :
  Host.parser_rejects H html = false ->
  Host.get_next_page_url H this html
  = get_next_page_url (Host.env H) this html.
Proof.
  intros Hacc. unfold Host.get_next_page_url. rewrite Hacc. reflexivity.
Qed.

Lemma host_resolver_rejected (this : CitationScraper) (html : str) :
  Host.parser_rejects H html = true ->
  Host.get_next_page_url H this html = Raise ParserRejectedMarkup.
Proof.
  intros Hrej. unfold Host.get_next_page_url. rewrite Hrej. reflexivity.
Qed.

(** On a host whose parser takes every page, a crawl is the crawl of the
    environment. *)
Lemma host_while_pages_accepting :
  (forall html, Host.parser_rejects H html = false) ->
  forall (fuel : nat) (max_pages : Z) (url : option str) (p : Z)
         (st : state),
    Host.while_pages H fuel max_pages url p st
    = while_pages (Host.env H) fuel max_pages url p st.
Proof.
  intros Hacc. induction fuel as [|fuel IH]; intros max_pages url p st.
  - reflexivity.
  - cbn [Host.while_pages while_pages].
    destruct (truthy_opt url && (p <? max_pages)); [| reflexivity].
    apply bind_ext; [reflexivity |]. intros _ s1.
    apply bind_ext; [reflexivity |]. intros html s2.
    destruct (negb (truthy_opt html)); [reflexivity |].
    apply bind_ext; [intros s; apply host_parse_accepted, Hacc |].
    intros page_quotes s3.
    apply bind_ext; [reflexivity |]. intros _ s4.
    apply bind_ext; [reflexivity |]. intros _ s5.
    apply bind_ext.
    + intros s. unfold Host.get_next_page_url_, get_next_page_url_.
      rewrite host_resolver_accepted by apply Hacc. reflexivity.
    + intros next s6.
      apply bind_ext; [reflexivity |]. intros _ s7. apply IH.
Qed.

Lemma host_scrape_all_pages_accepting (max_pages : Z) (st : state) :
  (forall html, Host.parser_rejects H html = false) ->
  Host.scrape_all_pages H max_pages st
  = scrape_all_pages (Host.env H) max_pages st.
Proof.
  intros Hacc. unfold Host.scrape_all_pages, scrape_all_pages.
  apply bind_ext; [reflexivity |]. intros this s1.
  apply bind_ext; [reflexivity |]. intros _ s2.
  apply bind_ext; [reflexivity |]. intros _ s3.
  apply bind_ext; [| reflexivity].
  intros s. apply host_while_pages_accepting. exact Hacc.
Qed.

End HostFacts.

(** ** The Field Extractor on a host *)

Lemma entry_text_of (q : quote) (d : node) : entry_of q d -> text_of q d.
Proof.
  intros (text_node & author_node & Ht & _ & Htext & _).
  exists text_node. split; [exact Ht |].
  rewrite Htext. apply strip_idempotent.
Qed.

Lemma double_strip_has_no_outer_quote (text : str) :
  head (strip dquote (strip dquote text)) <> Some 34%N
  /\ last (strip dquote (strip dquote text)) <> Some 34%N.
Proof.
  rewrite strip_idempotent. split.
  - intros H. apply strip_head in H. discriminate H.
  - intros H. apply strip_last in H. discriminate H.
Qed.

Lemma entry_text_has_no_outer_quote (q : quote) (d : node) :
  entry_of q d ->
  head (texto q) <> Some 34%N /\ last (texto q) <> Some 34%N.
Proof.
  intros (text_node & author_node & _ & _ & Htext & _). rewrite Htext.
  destruct (double_strip_has_no_outer_quote (get_text text_node))
    as [Hhead Hlast].
  split; assumption.
Qed.

Lemma Forall2_entry_text (qs : list quote) (ds : list node) :
  Forall2 entry_of qs ds -> Forall2 text_of qs ds.
Proof.
  induction 1 as [|q d qs ds Hq _ IH]; constructor.
  - exact (entry_text_of q d Hq).
  - exact IH.
Qed.

Lemma Forall2_entry_clean (qs : list quote) (ds : list node) :
  Forall2 entry_of qs ds ->
  List.Forall (fun q => head (texto q) <> Some 34%N
                        /\ last (texto q) <> Some 34%N) qs.
Proof.
  induction 1 as [|q d qs ds Hq _ IH]; constructor.
  - exact (entry_text_has_no_outer_quote q d Hq).
  - exact IH.
Qed.

Section HostExtractor.

Variable H : Host.host.

(** C3, as the code has it: on a page the parser takes, the extractor
    emits one entry for each container that has both required elements,
    in document order, and the text of each entry is the text of the text
    element of its own container with all enclosing quotation marks
    removed, be it empty or not; a container that lacks a required element
    gives no entry. On a page the parser rejects the extractor raises and
    emits nothing. *)
Theorem emitted_texts_are_the_stripped_texts (html_content : str)
    (st : state) :
  (Host.parser_rejects H html_content = false ->
   exists (qs : list quote) (st' : state),
     Host.parse_quote_page H html_content st = (Return qs, st')
     /\ Forall2 text_of qs
          (List.filter well_formed
             (find_all (py "div") (Some (py "quote"))
                (BeautifulSoup (Host.env H) html_content)))
     /\ List.Forall
          (fun q => head (texto q) <> Some 34%N
                    /\ last (texto q) <> Some 34%N) qs)
  /\ (Host.parser_rejects H html_content = true ->
      Host.parse_quote_page H html_content st
      = (Raise ParserRejectedMarkup, st)).
Proof.
  split; [| apply host_parse_rejected].
  intros Hacc. rewrite (host_parse_accepted H _ _ Hacc).
  destruct (parse_quote_page_run (Host.env H) html_content st)
    as (qs & msgs & Hrun & Hall).
  eexists qs, _. split; [exact Hrun |]. split.
  - exact (Forall2_entry_text _ _ Hall).
  - exact (Forall2_entry_clean _ _ Hall).
Qed.

(** C4, as the code has it: on a page the parser takes, the extractor does
    not fail; it emits, in document order, the entry of every container
    that has both required elements and skips exactly the others, so that
    a page with a container lacking one yields fewer entries than
    containers; the author of an entry is the text of the author element
    of its container, be it empty or not. The extractor fails on the pages
    the parser rejects, whatever their containers, and on those only. *)
Theorem extractor_skips_exactly_malformed_containers (html_content : str)
    (st : state) :
  (Host.parser_rejects H html_content = false ->
   exists (qs : list quote) (st' : state),
     Host.parse_quote_page H html_content st = (Return qs, st')
     /\ Forall2 entry_of qs
          (List.filter well_formed
             (find_all (py "div") (Some (py "quote"))
                (BeautifulSoup (Host.env H) html_content)))
     /\ (forall q, In q qs ->
           exists quote_div author_node,
             In quote_div (find_all (py "div") (Some (py "quote"))
                             (BeautifulSoup (Host.env H) html_content))
             /\ find (py "small") (Some (py "author")) (contents quote_div)
                  = Some author_node
             /\ autor q = get_text author_node)
     /\ ((exists quote_div,
            In quote_div (find_all (py "div") (Some (py "quote"))
                            (BeautifulSoup (Host.env H) html_content))
            /\ well_formed quote_div = false) ->
         (length qs
          < length (find_all (py "div") (Some (py "quote"))
                      (BeautifulSoup (Host.env H) html_content)))%nat))
  /\ (Host.parser_rejects H html_content = true ->
      Host.parse_quote_page H html_content st
      = (Raise ParserRejectedMarkup, st)).
Proof.
  split; [| apply host_parse_rejected].
  intros Hacc. rewrite (host_parse_accepted H _ _ Hacc).
  destruct (parse_quote_page_run (Host.env H) html_content st)
    as (qs & msgs & Hrun & Hall).
  eexists qs, _. split; [exact Hrun |]. split; [exact Hall |]. split.
  - intros q Hq.
    destruct (Forall2_entry_in _ _ q Hall Hq) as (d & Hd & He).
    apply List.filter_In in Hd. destruct Hd as [Hd _].
    destruct He as (text_node & author_node & _ & Ha & _ & Hauthor & _).
    exists d, author_node. auto.
  - intros (d & Hd & Hwf).
    rewrite (Forall2_length _ _ _ Hall).
    exact (filter_malformed_shorter _ d Hd Hwf).
Qed.

End HostExtractor.

(** The first page of the small site: one container, one entry, with the
    text of that container. *)
Lemma emitted_texts_are_the_stripped_texts_witness :
  exists (q : quote) (st' : state),
    Host.parse_quote_page demo_host (py "P1") (start_state (py "http://q"))
      = (Return [q], st')
    /\ texto q = py "a b".
Proof.
  destruct (proj1 (emitted_texts_are_the_stripped_texts demo_host (py "P1")
                     (start_state (py "http://q"))) eq_refl)
    as (qs & st' & Hrun & Hall & _).
  vm_compute in Hall.
  inversion Hall as [|q d qs' ds' Hq Hrest]; subst.
  inversion Hrest; subst.
  exists q, st'. split; [exact Hrun |].
  destruct Hq as (text_node & Hfind & Htext).
  vm_compute in Hfind. injection Hfind as <-. exact Htext.
Defined.

(** C3 as stated fails: a container whose text element is empty has its
    required fields, and its entry is emitted with an empty text. *)
Lemma empty_text_is_emitted :
  Host.parser_rejects demo_host (py "EMPTY-TEXT") = false
  /\ well_formed empty_text_div = true
  /\ exists q,
       fst (Host.parse_quote_page demo_host (py "EMPTY-TEXT")
              (start_state (py "http://q"))) = Return [q]
       /\ texto q = [].
Proof.
  split; [reflexivity |]. split; [reflexivity |].
  eexists. split; reflexivity.
Qed.

(** A page of three containers, the second without author: two entries;
    and the body the parser rejects. *)
Lemma extractor_skips_exactly_malformed_containers_witness :
  (exists (qs : list quote) (st' : state),
     Host.parse_quote_page demo_host (py "MIXED")
       (start_state (py "http://q")) = (Return qs, st')
     /\ (length qs < 3)%nat)
  /\ Host.parse_quote_page demo_host (py "<![x]>")
       (start_state (py "http://q"))
     = (Raise ParserRejectedMarkup, start_state (py "http://q")).
Proof.
  split.
  - destruct (proj1 (extractor_skips_exactly_malformed_containers demo_host
                       (py "MIXED") (start_state (py "http://q"))) eq_refl)
      as (qs & st' & Hrun & _ & _ & Hshort).
    exists qs, st'. split; [exact Hrun |].
    apply Hshort. exists no_author_div.
    split; [right; left; reflexivity | reflexivity].
  - apply (proj2 (extractor_skips_exactly_malformed_containers demo_host
                    (py "<![x]>") (start_state (py "http://q")))).
    reflexivity.
Defined.

(** C4 as stated fails, in two ways: an author element that is there but
    empty yields an entry with an empty author, and a body the parser
    rejects makes the extractor fail. *)
Lemma empty_author_is_emitted_and_rejected_page_fails :
  (exists q,
     fst (Host.parse_quote_page demo_host (py "EMPTY-AUTHOR")
            (start_state (py "http://q"))) = Return [q]
     /\ autor q = [])
  /\ fst (Host.parse_quote_page demo_host (py "<![x]>")
            (start_state (py "http://q"))) = Raise ParserRejectedMarkup.
Proof.
  split; [eexists; split; reflexivity | reflexivity].
Qed.

(** ** The Dataset Writer on a host *)

Section HostWriter.

Variable H : Host.host.

(** [Host.save_to_csv] by cases. *)
Lemma host_save_to_csv_cases (filename : str) (st : state) :
  Host.save_to_csv H filename st
  = let filepath := os_path_join (py "dados") filename in
    let made (tr : list event) (fs : gmap (list N) (list (list (list N)))) :=
      {| self := self st; trace := tr;
         clock_reads := clock_reads st; files := fs;
         dirs := {[py "dados"]} ∪ dirs st |} in
    let all_rows := fieldnames :: map row_of (quotes_data (self st)) in
    let k := Host.encodable_rows all_rows in
    match files st !! py "dados" with
    | Some _ => (Raise FileExistsError, st)
    | None =>
        match Host.makedirs_raises H (py "dados") with
        | Some e => (Raise e, st)
        | None =>
            match quotes_data (self st) with
            | [] =>
                (Return None,
                 made (trace st ++ [Print MsgNoData]) (files st))
            | _ :: _ =>
                if negb (Host.valid_path filepath)
                then (Raise ValueError, made (trace st) (files st))
                else
                  match open_w (Host.env H) filepath with
                  | OpenError =>
                      (Return None,
                       made (trace st ++ [Print (MsgSaveError IOError)])
                         (files st))
                  | WriteError n =>
                      if (k <? length all_rows)%nat && (k <=? n)%nat
                      then (Raise ValueError,
                            made (trace st)
                              (<[filepath := firstn k all_rows]> (files st)))
                      else (Return None,
                            made (trace st ++ [Print (MsgSaveError IOError)])
                              (<[filepath := firstn n all_rows]> (files st)))
                  | IoOk =>
                      if (k <? length all_rows)%nat
                      then (Raise ValueError,
                            made (trace st)
                              (<[filepath := firstn k all_rows]> (files st)))
                      else (Return (Some filepath),
                            made (trace st ++ [Print (MsgSaved filepath)])
                              (<[filepath := all_rows]> (files st)))
                  end
            end
        end
    end.
Proof.
  unfold Host.save_to_csv.
  unfold bind at 1, Host.os_makedirs at 1.
  destruct (files st !! py "dados") as [content|]; [reflexivity |].
  destruct (Host.makedirs_raises H (py "dados")) as [e|]; [reflexivity |].
  unfold bind at 1, get_self at 1. cbn [self].
  destruct (quotes_data (self st)) as [|q qs] eqn:Hq.
  - reflexivity.
  - unfold try_except. unfold bind at 1, Host.write_csv at 1.
    cbn [self trace clock_reads files dirs]. cbv zeta.
    destruct (negb (Host.valid_path (os_path_join (py "dados") filename)));
      [reflexivity |].
    destruct (open_w (Host.env H) (os_path_join (py "dados") filename)).
    + destruct (Host.encodable_rows (fieldnames :: map row_of (q :: qs))
                <? length (fieldnames :: map row_of (q :: qs)))%nat;
        reflexivity.
    + reflexivity.
    + destruct ((Host.encodable_rows (fieldnames :: map row_of (q :: qs))
                 <? length (fieldnames :: map row_of (q :: qs)))%nat
                && (Host.encodable_rows (fieldnames :: map row_of (q :: qs))
                    <=? rows_written)%nat);
        reflexivity.
Qed.

(** With the directory made, a path that [open] takes and rows that can
    be encoded, the writer on the host is the writer above. *)
Lemma host_save_to_csv_plain (filename : str) (st : state) :
  files st !! py "dados" = None ->
  Host.makedirs_raises H (py "dados") = None ->
  Host.valid_path (os_path_join (py "dados") filename) = true ->
  Host.encodable_rows (fieldnames :: map row_of (quotes_data (self st)))
    = length (fieldnames :: map row_of (quotes_data (self st))) ->
  Host.save_to_csv H filename st = save_to_csv (Host.env H) filename st.
Proof.
  intros Hfile Hmk Hpath Hrows.
  rewrite host_save_to_csv_cases, save_to_csv_cases. cbv zeta.
  rewrite Hfile, Hmk, Hpath, Hrows, Nat.ltb_irrefl. cbn [negb andb].
  reflexivity.
Qed.

(** C9, as the code has it: with no entry, [save_to_csv] creates and
    changes no file, whatever happens; it prints that there is no data and
    returns [None] when [os.makedirs] goes through, and when [os.makedirs]
    raises ([dados] is a regular file, or the host refuses) that exception
    leaves the method and nothing is printed. A file is created or changed
    only when there is an entry, and then only the dataset file; when
    there are entries, the directory is made, [open] takes the path, the
    rows can be encoded and the host writes them, the dataset file holds
    the header and one row for each entry. *)
Theorem writer_makes_no_file_without_entries (filename : str)
    (st : state) :
  (quotes_data (self st) = [] ->
   files (snd (Host.save_to_csv H filename st)) = files st
   /\ (files st !! py "dados" = None ->
       Host.makedirs_raises H (py "dados") = None ->
       fst (Host.save_to_csv H filename st) = Return None
       /\ trace (snd (Host.save_to_csv H filename st))
          = trace st ++ [Print MsgNoData]))
  /\ (files st !! py "dados" <> None ->
      Host.save_to_csv H filename st = (Raise FileExistsError, st))
  /\ (forall e : exn,
        files st !! py "dados" = None ->
        Host.makedirs_raises H (py "dados") = Some e ->
        Host.save_to_csv H filename st = (Raise e, st))
  /\ (forall path : str,
        files (snd (Host.save_to_csv H filename st)) !! path
          <> files st !! path ->
        quotes_data (self st) <> []
        /\ path = os_path_join (py "dados") filename)
  /\ (quotes_data (self st) <> [] ->
      files st !! py "dados" = None ->
      Host.makedirs_raises H (py "dados") = None ->
      Host.valid_path (os_path_join (py "dados") filename) = true ->
      open_w (Host.env H) (os_path_join (py "dados") filename) = IoOk ->
      Host.encodable_rows
        (fieldnames :: map row_of (quotes_data (self st)))
        = length (fieldnames :: map row_of (quotes_data (self st))) ->
      fst (Host.save_to_csv H filename st)
        = Return (Some (os_path_join (py "dados") filename))
      /\ files (snd (Host.save_to_csv H filename st))
           !! os_path_join (py "dados") filename
         = Some (fieldnames :: map row_of (quotes_data (self st)))).
Proof.
  rewrite host_save_to_csv_cases. cbv zeta.
  split; [| split; [| split; [| split]]].
  - intros Hq. rewrite Hq.
    destruct (files st !! py "dados") as [content|];
      [split; [reflexivity | discriminate] |].
    destruct (Host.makedirs_raises H (py "dados")) as [e|];
      [split; [reflexivity | discriminate] |].
    split; [reflexivity |]. intros _ _. split; reflexivity.
  - intros Hfile.
    destruct (files st !! py "dados") as [content|];
      [reflexivity | congruence].
  - intros e Hfile Hmk. rewrite Hfile, Hmk. reflexivity.
  - intros path.
    destruct (files st !! py "dados") as [content|];
      [intros Hneq; exfalso; apply Hneq; reflexivity |].
    destruct (Host.makedirs_raises H (py "dados")) as [e|];
      [intros Hneq; exfalso; apply Hneq; reflexivity |].
    destruct (quotes_data (self st)) as [|q qs];
      [intros Hneq; exfalso; apply Hneq; reflexivity |].
    assert (Hins : forall content : list (list str),
               <[os_path_join (py "dados") filename := content]> (files st)
                 !! path <> files st !! path ->
               path = os_path_join (py "dados") filename).
    { intros content Hneq.
      destruct (decide (os_path_join (py "dados") filename = path))
        as [Heq | Hne]; [symmetry; exact Heq |].
      exfalso. apply Hneq. apply lookup_insert_ne. exact Hne. }
    destruct (negb (Host.valid_path (os_path_join (py "dados") filename)));
      [intros Hneq; exfalso; apply Hneq; reflexivity |].
    destruct (open_w (Host.env H) (os_path_join (py "dados") filename)).
    + destruct (Host.encodable_rows (fieldnames :: map row_of (q :: qs))
                <? length (fieldnames :: map row_of (q :: qs)))%nat;
        cbn [snd files]; intros Hneq;
        (split; [discriminate | exact (Hins _ Hneq)]).
    + intros Hneq; exfalso; apply Hneq; reflexivity.
    + destruct ((Host.encodable_rows (fieldnames :: map row_of (q :: qs))
                 <? length (fieldnames :: map row_of (q :: qs)))%nat
                && (Host.encodable_rows (fieldnames :: map row_of (q :: qs))
                    <=? rows_written)%nat);
        cbn [snd files]; intros Hneq;
        (split; [discriminate | exact (Hins _ Hneq)]).
  - intros Hq Hfile Hmk Hpath Hopen Hrows.
    rewrite Hfile, Hmk, Hpath, Hopen, Hrows, Nat.ltb_irrefl.
    destruct (quotes_data (self st)) as [|q qs]; [congruence |].
    cbn [negb fst snd files]. split; [reflexivity |].
    apply lookup_insert_eq.
Qed.

(** X10: however [save_to_csv] ends, it leaves the object as it is, reads
    no clock, makes no request and no pause, and removes no directory;
    when [os.makedirs] goes through the directory [dados] exists
    afterwards, also with nothing to save and when the writing fails, so
    that it exists whenever the method returns. *)
Theorem save_keeps_object_and_makes_directory (filename : str)
    (st : state) :
  self (snd (Host.save_to_csv H filename st)) = self st
  /\ clock_reads (snd (Host.save_to_csv H filename st)) = clock_reads st
  /\ effects (trace (snd (Host.save_to_csv H filename st)))
     = effects (trace st)
  /\ dirs st ⊆ dirs (snd (Host.save_to_csv H filename st))
  /\ (files st !! py "dados" = None ->
      Host.makedirs_raises H (py "dados") = None ->
      dirs (snd (Host.save_to_csv H filename st))
      = {[py "dados"]} ∪ dirs st)
  /\ (forall v : option str,
        fst (Host.save_to_csv H filename st) = Return v ->
        py "dados" ∈ dirs (snd (Host.save_to_csv H filename st))).
Proof.
  rewrite host_save_to_csv_cases. cbv zeta.
  assert (Heff : forall msg : message,
             effects (trace st ++ [Print msg]) = effects (trace st)).
  { intros msg. rewrite effects_app.
    cbn [effects List.filter is_print negb]. apply app_nil_r. }
  destruct (files st !! py "dados") as [content|].
  { repeat split; try reflexivity; try discriminate. }
  destruct (Host.makedirs_raises H (py "dados")) as [e|].
  { repeat split; try reflexivity; try discriminate. }
  assert (Hsub : dirs st ⊆ {[py "dados"]} ∪ dirs st) by set_solver.
  assert (Hin : py "dados" ∈ {[py "dados"]} ∪ dirs st) by set_solver.
  destruct (quotes_data (self st)) as [|q qs].
  { cbn [fst snd self clock_reads trace dirs].
    repeat split; auto. }
  destruct (negb (Host.valid_path (os_path_join (py "dados") filename))).
  { cbn [fst snd self clock_reads trace dirs].
    repeat split; auto. }
  destruct (open_w (Host.env H) (os_path_join (py "dados") filename)).
  - destruct (Host.encodable_rows (fieldnames :: map row_of (q :: qs))
              <? length (fieldnames :: map row_of (q :: qs)))%nat;
      cbn [fst snd self clock_reads trace dirs]; repeat split; auto.
  - cbn [fst snd self clock_reads trace dirs]. repeat split; auto.
  - destruct ((Host.encodable_rows (fieldnames :: map row_of (q :: qs))
               <? length (fieldnames :: map row_of (q :: qs)))%nat
              && (Host.encodable_rows (fieldnames :: map row_of (q :: qs))
                  <=? rows_written)%nat);
      cbn [fst snd self clock_reads trace dirs]; repeat split; auto.
Qed.

End HostWriter.

(** A fresh scraper on the small host: nothing to save, the message, no
    file. *)
Lemma writer_makes_no_file_without_entries_witness :
  fst (Host.save_to_csv demo_host (py "citacoes_coletadas.csv")
         (start_state (py "http://q"))) = Return None
  /\ trace (snd (Host.save_to_csv demo_host (py "citacoes_coletadas.csv")
                   (start_state (py "http://q"))))
     = [Print MsgNoData]
  /\ files (snd (Host.save_to_csv demo_host (py "citacoes_coletadas.csv")
                   (start_state (py "http://q"))))
     = files (start_state (py "http://q")).
Proof.
  destruct (writer_makes_no_file_without_entries demo_host
              (py "citacoes_coletadas.csv") (start_state (py "http://q")))
    as (Hempty & _).
  destruct (Hempty eq_refl) as (Hfiles & Hsignal).
  destruct (Hsignal eq_refl eq_refl) as (Hret & Htrace).
  split; [exact Hret |]. split; [exact Htrace | exact Hfiles].
Defined.

(** C9 as stated fails: with no entry and [dados] a regular file,
    [os.makedirs] raises, the exception leaves [save_to_csv] and no
    message is printed. *)
Lemma no_signal_when_dados_is_a_file :
  quotes_data (self dados_is_a_file) = []
  /\ Host.save_to_csv demo_host (py "citacoes_coletadas.csv")
       dados_is_a_file
     = (Raise FileExistsError, dados_is_a_file)
  /\ trace dados_is_a_file = [].
Proof.
  split; [reflexivity |]. split; [| reflexivity].
  rewrite host_save_to_csv_cases. cbv zeta.
  replace (files dados_is_a_file !! py "dados") with (Some (@nil (list str)));
    [reflexivity |].
  symmetry. apply lookup_singleton_eq.
Qed.

(** ** The Crawl Driver on a host *)

(** X19: the handlers of the crawl take request failures and missing
    elements only. When the first page comes back with a body that the
    parser rejects, the exception of the parser leaves [scrape_all_pages]
    right after the request: nothing more is printed, no entry is added
    and nothing is returned. *)
Theorem parser_rejection_escapes_crawl (H : Host.host) (max_pages : Z)
    (st : state) (status_code : Z) (body : str) :
  1 <= max_pages ->
  session_get (Host.env H) (fetch_count (trace st))
    (base_url (self st) ++ py "/page/1/") = Responded status_code body ->
  ~ (400 <= status_code < 600) ->
  body <> [] ->
  Host.parser_rejects H body = true ->
  Host.scrape_all_pages H max_pages st
  = (Raise ParserRejectedMarkup,
     add_events st
       [Print MsgStart; Print MsgRule; Print (MsgPage 1);
        HttpGet (base_url (self st) ++ py "/page/1/") 10]).
Proof.
  intros Hmax Hget Hok Hbody Hrej.
  set (url := base_url (self st) ++ py "/page/1/") in *.
  set (st_a := add_events st [Print MsgStart; Print MsgRule]).
  set (st0 := add_events st_a [Print (MsgPage (0 + 1))]).
  set (st1 := add_events st0 [HttpGet url 10]).
  assert (Hloop :
    Host.while_pages H (Z.to_nat max_pages) max_pages (Some url) 0 st_a
    = (Raise ParserRejectedMarkup, st1)).
  { destruct (Z.to_nat max_pages) as [|fuel] eqn:Hfuel; [lia |].
    cbn [Host.while_pages].
    assert (Hcond : truthy_opt (Some url) && (0 <? max_pages) = true).
    { simpl. rewrite (truthy_nonempty url (first_page_url_nonempty _)).
      apply Z.ltb_lt. lia. }
    rewrite Hcond. unfold bind at 1. unfold print at 1, emit at 1.
    fold st0. unfold bind at 1. cbn [the_str].
    rewrite get_page_content_run.
    replace (fetch_count (trace st0)) with (fetch_count (trace st)).
    2:{ unfold st0, st_a. cbn [add_events trace].
        rewrite !fetch_count_app.
        cbn [fetch_count List.filter is_http_get length]. lia. }
    rewrite Hget.
    assert (Herr : (400 <=? status_code) && (status_code <? 600) = false).
    { apply andb_false_iff.
      destruct (Z.leb_spec 400 status_code); [right | left; reflexivity].
      apply Z.ltb_ge. lia. }
    rewrite Herr. fold st1.
    cbn [truthy_opt negb]. rewrite (truthy_nonempty body Hbody).
    cbn [negb the_str]. unfold bind at 1.
    rewrite (host_parse_rejected H body st1 Hrej). reflexivity. }
  unfold Host.scrape_all_pages.
  unfold bind at 1, get_self at 1.
  unfold bind at 1, print at 1, emit at 1.
  unfold bind at 1, print at 1, emit at 1.
  unfold bind at 1.
  replace (add_events (add_events st [Print MsgStart]) [Print MsgRule])
    with st_a
    by (unfold st_a, add_events; cbn [self trace clock_reads files dirs];
        rewrite <- app_assoc; reflexivity).
  fold url. rewrite Hloop.
  unfold st1, st0, st_a, add_events.
  cbn [self trace clock_reads files dirs Z.add Pos.add].
  rewrite <- !app_assoc. reflexivity.
Qed.

(** The host that serves the rejected body: the crawl raises and the
    object holds no entry. *)
Lemma parser_rejection_escapes_crawl_witness :
  exists st' : state,
    Host.scrape_all_pages rejecting_host 5 (start_state (py "http://r"))
    = (Raise ParserRejectedMarkup, st')
    /\ quotes_data (self st') = []
    /\ fetch_count (trace st') = 1%nat.
Proof.
  eexists. split.
  - apply (parser_rejection_escapes_crawl rejecting_host 5
             (start_state (py "http://r")) 200 (py "<![x]>")).
    + lia.
    + reflexivity.
    + lia.
    + discriminate.
    + reflexivity.
  - split; reflexivity.
Defined.
